(** * ks-killer: locating graduated kill-switch wrappers and neutralising
      their call sites.

    A shallow embedding of [findKSDeclaration] and [replaceFunCallWithFalse]
    together with the part of the syntax-tree provider (ts-morph) and of the
    host (strings, [Date], [uuid]) that the two functions go through. *)

From Stdlib Require Import List String Ascii ZArith Lia Bool Arith.
Import ListNotations.

Local Open Scope string_scope.
Local Open Scope list_scope.

(* ================================================================= *)
(** ** Host strings *)

Module JSString.

(** [s.includes(needle)]. *)
Fixpoint includes (s needle : string) : bool :=
  if String.prefix needle s then true
  else match s with
       | EmptyString => false
       | String _ rest => includes rest needle
       end.

(** A string is truthy when it is not empty. *)
Definition truthy (s : string) : bool :=
  negb (String.eqb s EmptyString).

(** [s.substring(a, b)]: both indices are clamped to [0, length] and
    swapped when [a > b]. *)
Definition clamp (len i : Z) : Z := Z.max 0 (Z.min i len).

Definition substring (s : string) (a b : Z) : string :=
  let len := Z.of_nat (String.length s) in
  let a' := clamp len a in
  let b' := clamp len b in
  let from := Z.min a' b' in
  let to := Z.max a' b' in
  String.substring (Z.to_nat from) (Z.to_nat (to - from)) s.

(** Case folding of a pattern without the unicode flag only identifies
    the ASCII letters. *)
Definition toLowerAscii (c : ascii) : ascii :=
  let n := nat_of_ascii c in
  if (65 <=? n)%nat && (n <=? 90)%nat then ascii_of_nat (n + 32) else c.

Fixpoint toLower (s : string) : string :=
  match s with
  | EmptyString => EmptyString
  | String c rest => String (toLowerAscii c) (toLower rest)
  end.

(** [/pat/i.test(s)] for a pattern [pat] made of lower-case letters. *)
Definition testIgnoreCase (pat s : string) : bool :=
  includes (toLower s) pat.

(** The characters a word is made of: letters, digits, [_] and [$]; a
    byte outside ASCII is part of a letter in most texts and is counted with
    them. *)
Definition isIdentifierPart (c : ascii) : bool :=
  let n := nat_of_ascii c in
  ((97 <=? n)%nat && (n <=? 122)%nat)
  || ((65 <=? n)%nat && (n <=? 90)%nat)
  || ((48 <=? n)%nat && (n <=? 57)%nat)
  || Nat.eqb n 95 || Nat.eqb n 36 || (128 <=? n)%nat.

Definition firstChar (s : string) : option ascii :=
  match s with
  | EmptyString => None
  | String c _ => Some c
  end.

Fixpoint lastChar (s : string) : option ascii :=
  match s with
  | EmptyString => None
  | String c rest =>
      match rest with
      | EmptyString => Some c
      | String _ _ => lastChar rest
      end
  end.

Definition isWordChar (o : option ascii) : bool :=
  match o with
  | Some c => isIdentifierPart c
  | None => false
  end.

(** Two texts written one after the other read as one word where the
    first ends and the second starts with a character of a word. *)
Definition joins (left right : string) : bool :=
  isWordChar (lastChar left) && isWordChar (firstChar right).

(** A text put between two others runs into one of them. *)
Definition fuses (text before after : string) : bool :=
  joins before text || joins text after.

End JSString.

(* ================================================================= *)
(** ** Syntax kinds *)

Module SyntaxKind.

Inductive t : Type :=
| SourceFile
| ImportDeclaration
| ImportSpecifier
| FunctionDeclaration
| Block
| IfStatement
| ExpressionStatement
| VariableStatement
| VariableDeclaration
| ReturnStatement
| CallExpression
| PropertyAccessExpression
| PrefixUnaryExpression
| Identifier
| StringLiteral
| TrueKeyword
| FalseKeyword
| ExportKeyword
| ConditionalExpression
| NumericLiteral
| ExclamationToken
| MinusToken
| Punctuation
| Trivia
| Other (tag : nat).

Definition eq_dec : forall a b : t, {a = b} + {a <> b}.
Proof. decide equality. apply Nat.eq_dec. Defined.

Definition eqb (a b : t) : bool := if eq_dec a b then true else false.

Lemma eqb_eq a b : eqb a b = true <-> a = b.
Proof. unfold eqb. destruct (eq_dec a b); split; congruence. Qed.

Lemma eqb_refl a : eqb a a = true.
Proof. apply eqb_eq. reflexivity. Qed.

Lemma eqb_neq a b : eqb a b = false <-> a <> b.
Proof. unfold eqb. destruct (eq_dec a b); split; congruence. Qed.

End SyntaxKind.

(* ================================================================= *)
(** ** Syntax trees

    A tree is made of tokens (punctuation, operators, trivia), which carry
    text only, and of syntax nodes, which are what [forEachChild],
    [getParent] and the [...ByKind] searches of the provider walk over.
    A syntax node carries the identity of its wrapper object, the property
    of its parent it is stored in, and its kind. *)

Definition NodeId := nat.

Inductive Field : Type :=
| FExpression
| FArguments
| FTypeArguments
| FName
| FPropertyName
| FOperand
| FStatements
| FBody
| FOther.

Definition Field_eq_dec : forall a b : Field, {a = b} + {a <> b}.
Proof. decide equality. Defined.

Definition Field_eqb (a b : Field) : bool :=
  if Field_eq_dec a b then true else false.

#[local] Set Warnings "-register-all".

Inductive Node : Type :=
| Token (kind : SyntaxKind.t) (text : string)
| Syntax (id : NodeId) (field : Field) (kind : SyntaxKind.t)
         (children : list Node).

Module Node.

Definition isSyntax (n : Node) : bool :=
  match n with Token _ _ => false | Syntax _ _ _ _ => true end.

Definition hasId (i : NodeId) (n : Node) : bool :=
  match n with Token _ _ => false | Syntax j _ _ _ => Nat.eqb j i end.

Definition getKind (n : Node) : SyntaxKind.t :=
  match n with Token k _ => k | Syntax _ _ k _ => k end.

Definition isKind (k : SyntaxKind.t) (n : Node) : bool :=
  SyntaxKind.eqb (getKind n) k.

Definition inField (f : Field) (n : Node) : bool :=
  match n with Token _ _ => false | Syntax _ g _ _ => Field_eqb g f end.

Definition getId (n : Node) : option NodeId :=
  match n with Token _ _ => None | Syntax i _ _ _ => Some i end.

Definition getField (n : Node) : Field :=
  match n with Token _ _ => FOther | Syntax _ f _ _ => f end.

Definition allChildren (n : Node) : list Node :=
  match n with Token _ _ => [] | Syntax _ _ _ cs => cs end.

(** The children [forEachChild] visits: the syntax nodes. *)
Definition forEachChild (n : Node) : list Node :=
  filter isSyntax (allChildren n).

(** [getText()]. *)
Fixpoint getText (n : Node) : string :=
  match n with
  | Token _ t => t
  | Syntax _ _ _ cs => String.concat EmptyString (map getText cs)
  end.

(** All syntax descendants, in the order of a depth-first walk. *)
Fixpoint getDescendants (n : Node) : list Node :=
  match n with
  | Token _ _ => []
  | Syntax _ _ _ cs =>
      flat_map (fun c => match c with
                         | Token _ _ => []
                         | Syntax _ _ _ _ => c :: getDescendants c
                         end) cs
  end.

Definition getDescendantsOfKind (k : SyntaxKind.t) (n : Node) : list Node :=
  filter (isKind k) (getDescendants n).

Definition getFirstDescendantByKind (k : SyntaxKind.t) (n : Node)
  : option Node :=
  find (isKind k) (getDescendants n).

Definition getChildrenOfKind (k : SyntaxKind.t) (n : Node) : list Node :=
  filter (isKind k) (forEachChild n).

(** [getExpression()] of a return statement or of a call. *)
Definition getExpression (n : Node) : option Node :=
  find (inField FExpression) (forEachChild n).

Definition getExpressionIfKind (k : SyntaxKind.t) (n : Node) : option Node :=
  match getExpression n with
  | Some e => if isKind k e then Some e else None
  | None => None
  end.

(** [getArguments()] of a call. *)
Definition getArguments (n : Node) : list Node :=
  filter (inField FArguments) (forEachChild n).

(** [getName()] of a property access: the text of its name node. *)
Definition getName (n : Node) : option string :=
  option_map getText (find (inField FName) (forEachChild n)).

(** [getName()] of an import specifier: the imported name, which is the
    property name when the specifier renames ([a as b]). *)
Definition getImportName (n : Node) : option string :=
  match find (inField FPropertyName) (forEachChild n) with
  | Some p => Some (getText p)
  | None => getName n
  end.

(** [getOperatorToken()] of a prefix unary expression. *)
Definition getOperatorToken (n : Node) : option SyntaxKind.t :=
  match allChildren n with
  | Token k _ :: _ => Some k
  | _ => None
  end.

(** The node and its descendants: everything reachable from a root. *)
Definition nodesOf (root : Node) : list Node :=
  if isSyntax root then root :: getDescendants root else [].

Definition findNode (i : NodeId) (root : Node) : option Node :=
  find (hasId i) (nodesOf root).

Definition findParent (i : NodeId) (root : Node) : option Node :=
  find (fun p => existsb (hasId i) (forEachChild p)) (nodesOf root).

(** The tree in which the node [i] is replaced by [new]. *)
Fixpoint replaceNode (i : NodeId) (new : Node) (n : Node) : Node :=
  match n with
  | Token _ _ => n
  | Syntax j f k cs =>
      if Nat.eqb j i then new
      else Syntax j f k (map (replaceNode i new) cs)
  end.

(** The text of the tree before and after the node [i]. *)
Fixpoint around (i : NodeId) (n : Node) : option (string * string) :=
  match n with
  | Token _ _ => None
  | Syntax j _ _ cs =>
      if Nat.eqb j i then Some (EmptyString, EmptyString)
      else
        (fix among (l : list Node) : option (string * string) :=
           match l with
           | [] => None
           | c :: rest =>
               match around i c with
               | Some (before, after) =>
                   Some (before,
                         String.append
                           after
                           (String.concat EmptyString (map getText rest)))
               | None =>
                   match among rest with
                   | Some (before, after) =>
                       Some (String.append (getText c) before, after)
                   | None => None
                   end
               end
           end) cs
  end.

(** The node itself, kept, with the replacement made below it. *)
Definition replaceBelow (i : NodeId) (new : Node) (n : Node) : Node :=
  match n with
  | Token _ _ => n
  | Syntax j f k cs => Syntax j f k (map (replaceNode i new) cs)
  end.

Fixpoint maxId (n : Node) : NodeId :=
  match n with
  | Token _ _ => 0
  | Syntax j _ _ cs => fold_right Nat.max j (map maxId cs)
  end.

End Node.

(** No node of the tree has the identity [j]. *)
Definition FreshIn (j : NodeId) (n : Node) : Prop :=
  forall m, In m (Node.nodesOf n) -> Node.hasId j m = false.

(* ================================================================= *)
(** ** Projects, dates, options and results *)

Record SourceFile : Type := mkSourceFile
  { filePath : string;
    root : Node }.

Definition Project := list SourceFile.

(** A [Date] is its time value in milliseconds; [None] is the invalid
    date, whose time value is NaN. *)
Definition JSDate := option Z.

Module JSDate.

(** [new Date(ms)] clips the time value to the range of valid dates. *)
Definition ofNumber (ms : Z) : JSDate :=
  if (Z.abs ms <=? 8640000000000000)%Z then Some ms else None.

(** [a < b] on dates compares the time values; a comparison with NaN
    is false. *)
Definition lt (a b : JSDate) : bool :=
  match a, b with
  | Some x, Some y => (x <? y)%Z
  | _, _ => false
  end.

End JSDate.

Record ICoreOptions : Type := mkOptions
  { targetId : option string;
    ksFilePath : option string;
    thresholdDate : option JSDate }.

Record IFindKSResult : Type := mkResult
  { ksDecls : list Node;
    guids : list string }.

Definition KS_ACTIVATED_METHOD : string := "isActivated".

Definition optBind {A B : Type} (o : option A) (f : A -> option B) : option B :=
  match o with Some a => f a | None => None end.

Notation "o ?> f" := (optBind o f) (at level 55, left associativity).

Definition isSome {A : Type} (o : option A) : bool :=
  match o with Some _ => true | None => false end.

(** [a === b] where [a] may be [undefined] and [b] is a string. *)
Definition strictEq (a : option string) (b : string) : bool :=
  match a with Some x => String.eqb x b | None => false end.

(* ================================================================= *)
(** ** The declaration locator *)

Section Locator.

(** [validate] of the uuid package. *)
Variable uuidValidate : string -> bool.
(** [Date.parse]; [None] stands for NaN.  [new Date(s)] on a string has
    the same time value. *)
Variable Date_parse : string -> option Z.
(** The comment heuristic of the utilities. *)
Variable extractDateFromComments : Node -> option string.
(** [project.getSourceFile(path)]: path resolution of the provider. *)
Variable getSourceFile : Project -> string -> option SourceFile.
(** [Date.now()] when the module is loaded. *)
Variable now : Z.

(** graduate ks before 180 days by default *)
Definition defaultDate : JSDate :=
  JSDate.ofNumber (now - 1000 * 60 * 60 * 24 * 180)%Z.

(** The files that may hold declarations when no path is given: those
    with a kill-switch import that mention the activation method. *)
Definition hasKsImported (f : SourceFile) : bool :=
  let importedNames :=
    map Node.getImportName
        (Node.getDescendantsOfKind SyntaxKind.ImportSpecifier (root f)) in
  existsb (fun name => match name with
                       | Some s => JSString.testIgnoreCase "killswitch" s
                       | None => false
                       end) importedNames.

Definition keepFile (f : SourceFile) : bool :=
  hasKsImported f
  && JSString.includes (Node.getText (root f))
                       (String.append "." KS_ACTIVATED_METHOD).

(** [ksFiles] and what is written to [console.error]. *)
Definition selectFiles (project : Project) (options : ICoreOptions)
  : list SourceFile * list string :=
  match ksFilePath options with
  | Some p =>
      if JSString.truthy p then
        match getSourceFile project p with
        | Some f => ([f], [])
        | None => ([], [String.append "Invalid KS file path: " p])
        end
      else (filter keepFile project, [])
  | None => (filter keepFile project, [])
  end.

(** The call of the first return statement, when it is one. *)
Definition returnedCall (funDecl : Node) : option Node :=
  Node.getFirstDescendantByKind SyntaxKind.ReturnStatement funDecl
    ?> Node.getExpressionIfKind SyntaxKind.CallExpression.

Definition accessName (funDecl : Node) : option string :=
  returnedCall funDecl
    ?> Node.getExpressionIfKind SyntaxKind.PropertyAccessExpression
    ?> Node.getName.

(** restrict the structure: [return _SPKillSwitch.isActivated(ID)] *)
Definition structuralMatch (funDecl : Node) : bool :=
  strictEq (accessName funDecl) KS_ACTIVATED_METHOD.

Definition argumentText (funDecl : Node) (i : nat) : option string :=
  option_map Node.getText
    (returnedCall funDecl ?> fun c => nth_error (Node.getArguments c) i).

(** The text of the first argument without its first and last
    character. *)
Definition extractGuid (funDecl : Node) : option string :=
  option_map
    (fun a => JSString.substring a 1 (Z.of_nat (String.length a) - 1))
    (argumentText funDecl 0).

(** a valid date, either from the second argument or comments *)
Definition dateStringOf (funDecl : Node) : option string :=
  match argumentText funDecl 1 with
  | Some secondArg =>
      if JSString.truthy secondArg && isSome (Date_parse secondArg)
      then Some secondArg
      else extractDateFromComments funDecl
  | None => extractDateFromComments funDecl
  end.

Definition push (result : IFindKSResult) (funDecl : Node) (guid : string)
  : IFindKSResult :=
  {| ksDecls := ksDecls result ++ [funDecl];
     guids := guids result ++ [guid] |}.

(** The body of the loop over the function declarations of a file. *)
Definition visitFunDecl (target : option string) (threshold : JSDate)
           (result : IFindKSResult) (funDecl : Node) : IFindKSResult :=
  if negb (structuralMatch funDecl) then result
  else
    let guid := extractGuid funDecl in
    let scan :=
      match guid with
      | Some g =>
          if JSString.truthy g && uuidValidate g then
            match dateStringOf funDecl with
            | Some dateString =>
                if JSString.truthy dateString then
                  if JSDate.lt (Date_parse dateString) threshold
                  then push result funDecl g
                  else result
                else result
            | None => result
            end
          else result
      | None => result
      end in
    match target with
    | Some t =>
        if JSString.truthy t then
          match guid with
          | Some g => if String.eqb g t then push result funDecl g else result
          | None => result
          end
        else scan
    | None => scan
    end.

Definition funDeclsOf (ksFile : SourceFile) : list Node :=
  Node.getChildrenOfKind SyntaxKind.FunctionDeclaration (root ksFile).

Definition visitFile (target : option string) (threshold : JSDate)
           (result : IFindKSResult) (ksFile : SourceFile) : IFindKSResult :=
  fold_left (visitFunDecl target threshold) (funDeclsOf ksFile) result.

Definition thresholdOf (options : ICoreOptions) : JSDate :=
  match thresholdDate options with
  | Some d => d
  | None => defaultDate
  end.

(** [findKSDeclaration]: the result and the lines sent to
    [console.error]. *)
Definition findKSDeclaration (project : Project) (options : ICoreOptions)
  : IFindKSResult * list string :=
  let '(ksFiles, errors) := selectFiles project options in
  (fold_left (visitFile (targetId options) (thresholdOf options))
             ksFiles {| ksDecls := []; guids := [] |},
   errors).

End Locator.

(** *** The selection rule in the words of the design

    The graduation date of a declaration: the date of the second argument
    of the call when its text parses as one, else the date of the string
    found in the comments; absent when neither is a valid date. *)
Section GraduationDate.

Variable Date_parse : string -> option Z.
Variable extractDateFromComments : Node -> option string.

Definition graduationDate (funDecl : Node) : option Z :=
  match argumentText funDecl 1 ?> Date_parse with
  | Some d => Some d
  | None => extractDateFromComments funDecl ?> Date_parse
  end.

End GraduationDate.

Definition emptyResult : IFindKSResult := {| ksDecls := []; guids := [] |}.

Definition appendResult (a b : IFindKSResult) : IFindKSResult :=
  {| ksDecls := ksDecls a ++ ksDecls b; guids := guids a ++ guids b |}.

(** A loop body that only pushes can be run on the empty result and its
    pushes appended afterwards. *)
Definition Appending {X : Type} (step : IFindKSResult -> X -> IFindKSResult)
  : Prop :=
  forall r x, step r x = appendResult r (step emptyResult x).

(** The two lists are aligned: the identifier at an index is the one
    extracted from the declaration at that index. *)
Definition Aligned (r : IFindKSResult) : Prop :=
  map extractGuid (ksDecls r) = map Some (guids r).

(** Whether the loop body pushes the declaration, taken alone. *)
Definition selects (uuidValidate : string -> bool)
           (Date_parse : string -> option Z)
           (extractDateFromComments : Node -> option string)
           (target : option string) (threshold : JSDate) (D : Node) : bool :=
  match ksDecls (visitFunDecl uuidValidate Date_parse extractDateFromComments
                              target threshold emptyResult D) with
  | [] => false
  | _ :: _ => true
  end.

(** An optional string that a condition takes for false: absent or
    empty. *)
Definition falsy (o : option string) : Prop :=
  o = None \/ o = Some EmptyString.

(** A string has another one inside it. *)
Definition Contains (s needle : string) : Prop :=
  exists before after,
    s = String.append before (String.append needle after).

(* ================================================================= *)
(** ** The provider's view of a project: identity, parents, replacement *)

Inductive Result (A : Type) : Type :=
| Ok (value : A)
| Throw (message : string).

Arguments Ok {A} value.
Arguments Throw {A} message.

Definition bind {A B : Type} (r : Result A) (f : A -> Result B) : Result B :=
  match r with
  | Ok a => f a
  | Throw m => Throw m
  end.

Notation "x <- r ;; k" := (bind r (fun x => k))
  (at level 100, r at next level, right associativity).

Definition forgotten : string :=
  "Attempted to get information from a node that was removed or forgotten.".

Definition manipulationError : string := "Manipulation error".

Module Project.

Definition idOf (n : Node) : NodeId :=
  match n with Token _ _ => 0 | Syntax i _ _ _ => i end.

(** The file a live node belongs to, and the node. *)
Fixpoint lookup (p : Project) (i : NodeId) : option (SourceFile * Node) :=
  match p with
  | [] => None
  | f :: rest =>
      match Node.findNode i (root f) with
      | Some n => Some (f, n)
      | None => lookup rest i
      end
  end.

(** [getParent()] of the node [i]. *)
Definition getParent (p : Project) (i : NodeId) : option Node :=
  lookup p i ?> fun fn => Node.findParent i (root (fst fn)).

(** [getParentIfKind(kind)]. *)
Definition getParentIfKind (k : SyntaxKind.t) (p : Project) (i : NodeId)
  : option Node :=
  getParent p i ?> fun q => if Node.isKind k q then Some q else None.

(** An identity no node of the project has. *)
Definition freshId (p : Project) : NodeId :=
  S (fold_right Nat.max 0 (map (fun f => Node.maxId (root f)) p)).

(** The node the provider builds for a replacement text: the two
    boolean literals are keyword nodes. *)
Definition parseText (i : NodeId) (f : Field) (text : string) : Node :=
  let k := if String.eqb text "true" then SyntaxKind.TrueKeyword
           else if String.eqb text "false" then SyntaxKind.FalseKeyword
           else SyntaxKind.Identifier in
  Syntax i f k [Token k text].

(** The file with the node [i] replaced; the file keeps its path. *)
Definition replacedFile (i : NodeId) (new : Node) (f : SourceFile)
  : SourceFile :=
  mkSourceFile (filePath f) (Node.replaceNode i new (root f)).

Definition replaceNode (i : NodeId) (new : Node) (p : Project) : Project :=
  map (replacedFile i new) p.

(** The text of the file of the node [i] before and after the node. *)
Definition around (p : Project) (i : NodeId) : option (string * string) :=
  lookup p i ?> fun fn => Node.around i (root (fst fn)).

(** Whether a text put in the place of the node would run into the text
    next to it; nothing for a node the project does not hold. *)
Definition fusion (p : Project) (n : Node) (text : string) : option bool :=
  option_map (fun ba => JSString.fuses text (fst ba) (snd ba))
             (around p (idOf n)).

(** [node.replaceWithText(text)]: the provider writes the text in the
    place of the node and parses the file again.  When the text runs into
    its neighbour ([return!f()] with [true] for [!f()] reads [returntrue])
    the new tree does not match the old one and the provider throws,
    leaving the file as it was.  Otherwise the node is forgotten with all
    its descendants, a new node takes its place, and the new node is
    returned. *)
Definition replaceWithText (p : Project) (n : Node) (text : string)
  : Result (Project * NodeId) :=
  match fusion p n text with
  | None => Throw forgotten
  | Some true => Throw manipulationError
  | Some false =>
      let i := freshId p in
      Ok (replaceNode (idOf n) (parseText i (Node.getField n) text) p, i)
  end.

Definition getText (p : Project) (i : NodeId) : option string :=
  option_map (fun fn => Node.getText (snd fn)) (lookup p i).


End Project.

(* ================================================================= *)
(** ** The reference replacement engine *)

(** A JS [Set] keeps the order of first insertion. *)
Definition setAdd {A : Type} (eqb : A -> A -> bool) (x : A) (s : list A)
  : list A :=
  if existsb (eqb x) s then s else s ++ [x].

(** The project under mutation with the two sets of the function.  Nodes
    are named by their identity, files by their path. *)
Record ReplaceState : Type := mkState
  { project : Project;
    workList : list NodeId;
    refFiles : list string }.

(** The negation the call sits under, when there is one. *)
Definition negationOf (p : Project) (parent : Node) : option Node :=
  match Project.getParentIfKind SyntaxKind.PrefixUnaryExpression p
                                (Project.idOf parent) with
  | Some negation =>
      match Node.getOperatorToken negation with
      | Some op =>
          if SyntaxKind.eqb op SyntaxKind.ExclamationToken
          then Some negation else None
      | None => None
      end
  | None => None
  end.

(** A logical negation: a prefix unary expression whose operator is [!]. *)
Definition isNegation (n : Node) : Prop :=
  Node.getKind n = SyntaxKind.PrefixUnaryExpression
  /\ Node.getOperatorToken n = Some SyntaxKind.ExclamationToken.

Definition isNegationb (n : Node) : bool :=
  Node.isKind SyntaxKind.PrefixUnaryExpression n
  && match Node.getOperatorToken n with
     | Some op => SyntaxKind.eqb op SyntaxKind.ExclamationToken
     | None => false
     end.

Definition initialState (p : Project) : ReplaceState :=
  {| project := p; workList := []; refFiles := [] |}.

(** The state once a replacement is made for a reference of a file: the
    parent of the new node, when it has one, and the file are recorded. *)
Definition afterReplacement (st : ReplaceState) (refFile : SourceFile)
           (replaced : Project * NodeId) : ReplaceState :=
  match Project.getParent (fst replaced) (snd replaced) with
  | Some newParent =>
      {| project := fst replaced;
         workList := setAdd Nat.eqb (Project.idOf newParent) (workList st);
         refFiles := setAdd String.eqb (filePath refFile) (refFiles st) |}
  | None =>
      {| project := fst replaced;
         workList := workList st;
         refFiles := refFiles st |}
  end.

(** The project with the node replaced by the literal [text]. *)
Definition withLiteral (p : Project) (n : Node) (text : string)
  : Project * NodeId :=
  (Project.replaceNode
     (Project.idOf n)
     (Project.parseText (Project.freshId p) (Node.getField n) text) p,
   Project.freshId p).

Section Engine.

(** The reference entries of the provider. *)
Variable Ref : Type.
(** [ref.getNode()]: the node the provider finds for a reference in the
    project as it is when the reference is asked for it. *)
Variable getNode : Project -> Ref -> NodeId.

(** The body of the loop over the references.  The node of a reference
    is asked for inside the loop, so after the replacements made for the
    references before it. *)
Definition processRef (st : ReplaceState) (ref : Ref)
  : Result ReplaceState :=
  let refNode := getNode (project st) ref in
  match Project.lookup (project st) refNode with
  | None => Throw forgotten
  | Some (refFile, _) =>
      match Project.getParent (project st) refNode with
      | None => Ok st
      | Some parent =>
          (* not a function call(e.g. declaration), skip *)
          if negb (Node.isKind SyntaxKind.CallExpression parent) then Ok st
          else
            (* if it's negated, replace the whole thing with true *)
            replaced <-
              match negationOf (project st) parent with
              | Some negation =>
                  Project.replaceWithText (project st) negation "true"
              | None =>
                  Project.replaceWithText (project st) parent "false"
              end ;;
            match Project.getParent (fst replaced) (snd replaced) with
            | Some newParent =>
                Ok {| project := fst replaced;
                      workList := setAdd Nat.eqb (Project.idOf newParent)
                                         (workList st);
                      refFiles := setAdd String.eqb (filePath refFile)
                                         (refFiles st) |}
            | None =>
                Ok {| project := fst replaced;
                      workList := workList st;
                      refFiles := refFiles st |}
            end
      end
  end.

Definition processRefs (refs : list Ref) (st : ReplaceState)
  : Result ReplaceState :=
  fold_left (fun acc ref => st' <- acc ;; processRef st' ref) refs (Ok st).

(** [ksDecl.findReferences()]: the referenced symbols, each with its
    reference entries. *)
Variable findReferences : Project -> Node -> list (list Ref).

(** [replaceFunCallWithFalse]: the work list and the files of the
    references, with the project as the call leaves it.  The progress line
    written to the console is left out, and so is the project a throw
    leaves behind. *)
Definition replaceFunCallWithFalse (p : Project) (ksDecl : Node)
  : Result ReplaceState :=
  fold_left (fun acc refSymbol => st <- acc ;; processRefs refSymbol st)
            (findReferences p ksDecl)
            (Ok {| project := p; workList := []; refFiles := [] |}).

End Engine.

Arguments processRef {Ref} getNode st ref.
Arguments processRefs {Ref} getNode refs st.
Arguments replaceFunCallWithFalse {Ref} getNode findReferences p ksDecl.

(* ================================================================= *)
(** ** Ancestors *)

Fixpoint firstSome {A : Type} (l : list (option A)) : option A :=
  match l with
  | [] => None
  | Some a :: _ => Some a
  | None :: rest => firstSome rest
  end.

(** The ancestors of the node [i] in a tree, from its parent up to the
    root of the tree; nothing when the tree does not hold the node. *)
Fixpoint ancestorsIn (i : NodeId) (n : Node) : option (list Node) :=
  match n with
  | Token _ _ => None
  | Syntax j _ _ cs =>
      if Nat.eqb j i then Some []
      else option_map (fun up => up ++ [n])
                      (firstSome (map (ancestorsIn i) cs))
  end.

(** [node.getAncestors()] for a live node. *)
Definition getAncestors (p : Project) (i : NodeId) : option (list Node) :=
  Project.lookup p i ?> fun fn => ancestorsIn i (root (fst fn)).

(** Determine if nodeA is an ancestor of nodeB.  The nodes are given by
    their identities; [includes] compares the wrapper objects.  Asking a
    forgotten node for its ancestors throws. *)
Definition isAncestorOf (p : Project) (nodeA nodeB : NodeId) : Result bool :=
  match getAncestors p nodeB with
  | Some ancestors => Ok (existsb (Node.hasId nodeA) ancestors)
  | None =>
      Throw forgotten
  end.

(* ================================================================= *)
(** ** A host and sample sources

    Instances of the host functions, used to run the two functions on
    sample projects: the pattern of the uuid package, the date-only form
    [YYYY-MM-DD] of [Date.parse] (characters around it that are neither
    letters, digits nor signs are skipped, as the legacy parser of V8
    does), no comment dates, resolution of a file by its exact path,
    references found by name (in the samples a name has one meaning), and
    a reference that stands for the node it was found at (in the samples no
    reference is resolved after a replacement in its file). *)

Module Host.

Definition isDigit (c : ascii) : bool :=
  let n := nat_of_ascii c in (48 <=? n)%nat && (n <=? 57)%nat.

Definition isHex (c : ascii) : bool :=
  let n := nat_of_ascii (JSString.toLowerAscii c) in
  isDigit c || ((97 <=? n)%nat && (n <=? 102)%nat).

Inductive CharClass : Type := Hex | Dash | Version | Variant.

Definition inClass (k : CharClass) (c : ascii) : bool :=
  let n := nat_of_ascii (JSString.toLowerAscii c) in
  match k with
  | Hex => isHex c
  | Dash => Nat.eqb n 45
  | Version => (49 <=? n)%nat && (n <=? 53)%nat
  | Variant => Nat.eqb n 56 || Nat.eqb n 57 || Nat.eqb n 97 || Nat.eqb n 98
  end.

Fixpoint matches (pat : list CharClass) (s : string) : bool :=
  match pat, s with
  | [], EmptyString => true
  | k :: pat', String c s' => inClass k c && matches pat' s'
  | _, _ => false
  end.

(** [8-4-4-4-12] hexadecimal digits with a version digit in [1-5] and a
    variant digit in [89ab], or the nil identifier; case-insensitive. *)
Definition uuidPattern : list CharClass :=
  repeat Hex 8 ++ [Dash] ++ repeat Hex 4 ++ [Dash]
    ++ [Version] ++ repeat Hex 3 ++ [Dash]
    ++ [Variant] ++ repeat Hex 3 ++ [Dash] ++ repeat Hex 12.

Definition uuidValidate (s : string) : bool :=
  matches uuidPattern s
  || String.eqb s "00000000-0000-0000-0000-000000000000".

Definition isIgnored (c : ascii) : bool :=
  let n := nat_of_ascii c in
  (n <? 128)%nat
  && negb (isDigit c)
  && negb ((65 <=? n)%nat && (n <=? 90)%nat)
  && negb ((97 <=? n)%nat && (n <=? 122)%nat)
  && negb (Nat.eqb n 43 || Nat.eqb n 45 || Nat.eqb n 40 || Nat.eqb n 41).

Fixpoint dropIgnored (s : list ascii) : list ascii :=
  match s with
  | c :: rest => if isIgnored c then dropIgnored rest else s
  | [] => []
  end.

Definition trimIgnored (s : list ascii) : list ascii :=
  rev (dropIgnored (rev (dropIgnored s))).

Definition digitValue (c : ascii) : Z := Z.of_nat (nat_of_ascii c) - 48.

Definition number (ds : list ascii) : option Z :=
  if forallb isDigit ds
  then Some (fold_left (fun acc c => 10 * acc + digitValue c) ds 0)%Z
  else None.

(** Days from 1970-01-01 to a date of the proleptic Gregorian calendar. *)
Definition daysFromCivil (y m d : Z) : Z :=
  let y' := (if m <=? 2 then y - 1 else y)%Z in
  let era := (y' / 400)%Z in
  let yoe := (y' - era * 400)%Z in
  let mp := ((m + 9) mod 12)%Z in
  let doy := ((153 * mp + 2) / 5 + d - 1)%Z in
  let doe := (yoe * 365 + yoe / 4 - yoe / 100 + doy)%Z in
  (era * 146097 + doe - 719468)%Z.

Definition dash : ascii := ascii_of_nat 45.

Definition Date_parse (s : string) : option Z :=
  match trimIgnored (list_ascii_of_string s) with
  | [y1; y2; y3; y4; s1; m1; m2; s2; d1; d2] =>
      if Ascii.eqb s1 dash && Ascii.eqb s2 dash then
        match number [y1; y2; y3; y4], number [m1; m2], number [d1; d2] with
        | Some y, Some m, Some d =>
            if ((1 <=? m) && (m <=? 12) && (1 <=? d) && (d <=? 31))%Z
            then Some (daysFromCivil y m d * 86400000)%Z
            else None
        | _, _, _ => None
        end
      else None
  | _ => None
  end.

Definition extractDateFromComments (funDecl : Node) : option string := None.

Definition getSourceFile (p : Project) (path : string) : option SourceFile :=
  find (fun f => String.eqb (filePath f) path) p.

(** 2024-06-28T00:00:00Z, so that the default threshold is 2024-01-01. *)
Definition now : Z := 1719532800000.

Definition declName (decl : Node) : option string :=
  option_map Node.getText (find (Node.inField FName) (Node.forEachChild decl)).

Definition isReferenceTo (name : string) (n : Node) : bool :=
  Node.isKind SyntaxKind.Identifier n && String.eqb (Node.getText n) name.

Definition findReferences (p : Project) (decl : Node) : list (list NodeId) :=
  match declName decl with
  | Some name =>
      [map Project.idOf
           (filter (isReferenceTo name)
                   (flat_map (fun f => Node.nodesOf (root f)) p))]
  | None => []
  end.

Definition getNode (p : Project) (ref : NodeId) : NodeId := ref.

End Host.

(** Building sample trees. *)
Module Build.

Definition dq : string := String (ascii_of_nat 34) EmptyString.

Definition quoted (s : string) : string :=
  String.append dq (String.append s dq).

Definition punct (s : string) : Node := Token SyntaxKind.Punctuation s.
Definition sp : Node := Token SyntaxKind.Trivia " ".
Definition bang : Node := Token SyntaxKind.ExclamationToken "!".

Definition ident (i : NodeId) (f : Field) (name : string) : Node :=
  Syntax i f SyntaxKind.Identifier [Token SyntaxKind.Identifier name].

Definition str (i : NodeId) (f : Field) (s : string) : Node :=
  Syntax i f SyntaxKind.StringLiteral
         [Token SyntaxKind.StringLiteral (quoted s)].

(** [callee(args)] *)
Definition call (i : NodeId) (f : Field) (callee : Node) (args : list Node)
  : Node :=
  Syntax i f SyntaxKind.CallExpression
         ([callee; punct "("] ++ args ++ [punct ")"]).

(** [object.name] *)
Definition access (i : NodeId) (f : Field) (object name : Node) : Node :=
  Syntax i f SyntaxKind.PropertyAccessExpression [object; punct "."; name].

(** [!operand] *)
Definition not (i : NodeId) (f : Field) (operand : Node) : Node :=
  Syntax i f SyntaxKind.PrefixUnaryExpression [bang; operand].

(** [expression;] *)
Definition exprStmt (i : NodeId) (e : Node) : Node :=
  Syntax i FStatements SyntaxKind.ExpressionStatement [e; punct ";"].

(** [return expression;] *)
Definition ret (i : NodeId) (e : Node) : Node :=
  Syntax i FStatements SyntaxKind.ReturnStatement
         [punct "return"; sp; e; punct ";"].

(** [{ statements }] *)
Definition block (i : NodeId) (f : Field) (stmts : list Node) : Node :=
  Syntax i f SyntaxKind.Block
         ([punct "{"; sp] ++ flat_map (fun s => [s; sp]) stmts ++ [punct "}"]).

(** [function name()body] *)
Definition func (i : NodeId) (name body : Node) : Node :=
  Syntax i FStatements SyntaxKind.FunctionDeclaration
         [punct "function"; sp; name; punct "("; punct ")"; body].

(** [import { imported as local } from "module";] *)
Definition importAs (i : NodeId) (imported local : string) (module : string)
  : Node :=
  Syntax i FStatements SyntaxKind.ImportDeclaration
    [punct "import"; sp; punct "{"; sp;
     Syntax (i + 1) FOther SyntaxKind.ImportSpecifier
            [ident (i + 2) FPropertyName imported; sp; punct "as"; sp;
             ident (i + 3) FName local];
     sp; punct "}"; sp; punct "from"; sp; str (i + 4) FOther module;
     punct ";"].

(** [import { name } from "module";] *)
Definition importNamed (i : NodeId) (name : string) (module : string)
  : Node :=
  Syntax i FStatements SyntaxKind.ImportDeclaration
    [punct "import"; sp; punct "{"; sp;
     Syntax (i + 1) FOther SyntaxKind.ImportSpecifier
            [ident (i + 2) FName name];
     sp; punct "}"; sp; punct "from"; sp; str (i + 3) FOther module;
     punct ";"].

(** [export declaration] *)
Definition exported (i : NodeId) (declaration : Node) : Node :=
  match declaration with
  | Token _ _ => declaration
  | Syntax j f k cs =>
      Syntax j f k
             (Syntax i FOther SyntaxKind.ExportKeyword
                     [Token SyntaxKind.ExportKeyword "export"]
                     :: sp :: cs)
  end.

Definition sourceFile (path : string) (i : NodeId) (stmts : list Node)
  : SourceFile :=
  mkSourceFile path
    (Syntax i FOther SyntaxKind.SourceFile
            (flat_map (fun s => [s; Token SyntaxKind.Trivia " "]) stmts)).

End Build.

Module Samples.

Import Build.

Definition guidX : string := "3fa85f64-5717-4562-b3fc-2c963f66afa6".

Definition isActivatedCall (i : NodeId) (args : list Node) : Node :=
  call i FExpression
       (access (i + 1) FExpression
               (ident (i + 2) FExpression "FLAG")
               (ident (i + 3) FName "isActivated"))
       args.

(** [function checkX(){ return FLAG.isActivated("3fa8...", "2023-01-01"); }] *)
Definition checkX : Node :=
  func 10 (ident 11 FName "checkX")
       (block 12 FBody
              [ret 13 (isActivatedCall 14
                         [str 18 FArguments guidX; punct ","; sp;
                          str 19 FArguments "2023-01-01"])]).

(** [if (!checkX()) { doWork(); }] *)
Definition callSite : Node :=
  Syntax 20 FStatements SyntaxKind.IfStatement
    [punct "if"; sp; punct "(";
     not 21 FExpression (call 22 FOperand (ident 23 FExpression "checkX") []);
     punct ")"; sp;
     block 24 FOther
           [exprStmt 25 (call 26 FExpression
                              (ident 27 FExpression "doWork") [])]].

Definition flagsFile : SourceFile :=
  sourceFile "/src/flags.ts" 1
             [importAs 2 "KillSwitch" "FLAG" "killswitches"; checkX; callSite].

Definition endToEnd : Project := [flagsFile].

(** [function checkY(){ return FLAG.isActivated(<two quotes>); }]: the
    identifier is the empty string. *)
Definition checkY : Node :=
  func 10 (ident 11 FName "checkY")
       (block 12 FBody
              [ret 13 (isActivatedCall 14 [str 18 FArguments EmptyString])]).

Definition emptyGuidFile : SourceFile :=
  sourceFile "/src/flags.ts" 1
             [importAs 2 "KillSwitch" "FLAG" "killswitches"; checkY].

(** [function checkZ(){ if (legacy) { return FLAG.isActivated("3fa8..."); }
    return other(); }]: two return statements. *)
Definition checkZ : Node :=
  func 10 (ident 11 FName "checkZ")
       (block 12 FBody
              [Syntax 30 FStatements SyntaxKind.IfStatement
                      [punct "if"; sp; punct "(";
                       ident 31 FExpression "legacy"; punct ")"; sp;
                       block 32 FOther
                             [ret 13 (isActivatedCall 14
                                        [str 18 FArguments guidX])]];
               ret 33 (call 34 FExpression
                            (ident 35 FExpression "other") [])]).

(** [export function wrapper(){ return FLAG.isActivated("3fa8..."); }] *)
Definition wrapper : Node :=
  exported 9
    (func 10 (ident 11 FName "wrapper")
          (block 12 FBody
                 [ret 13 (isActivatedCall 14 [str 18 FArguments guidX])])).

Definition wrapperFile : SourceFile :=
  sourceFile "/src/flags.ts" 1
             [importAs 2 "KillSwitch" "FLAG" "killswitches"; wrapper].

Definition wrapperCall (i : NodeId) (f : Field) : Node :=
  call i f (ident (i + 1) FExpression "wrapper") [].

(** [const name = initializer;] *)
Definition constStmt (i : NodeId) (name : string) (initializer : Node) : Node :=
  Syntax i FStatements SyntaxKind.VariableStatement
         [punct "const"; sp;
          Syntax (i + 1) FOther SyntaxKind.VariableDeclaration
                 [ident (i + 2) FName name; sp; punct "="; sp; initializer];
          punct ";"].

(** [!wrapper();] *)
Definition negatedCall : Node :=
  exprStmt 41 (not 42 FExpression (wrapperCall 43 FOperand)).

(** [wrapper();] *)
Definition bareCall : Node := exprStmt 41 (wrapperCall 43 FExpression).

(** [const x = wrapper();] *)
Definition boundCall : Node := constStmt 41 "x" (wrapperCall 44 FOther).

(** [const f = wrapper;] *)
Definition alias : Node := constStmt 41 "f" (ident 45 FOther "wrapper").

(** [run(wrapper);] *)
Definition passedAsArgument : Node :=
  exprStmt 41 (call 42 FExpression (ident 43 FExpression "run")
                    [ident 44 FArguments "wrapper"]).


(** [h(g ? wrapper : 0, wrapper);] *)
Definition sharedCall : Node :=
  exprStmt 41
    (call 42 FExpression (ident 43 FExpression "h")
          [Syntax 44 FArguments SyntaxKind.ConditionalExpression
                  [ident 45 FOther "g"; sp; punct "?"; sp;
                   ident 46 FOther "wrapper"; sp; punct ":"; sp;
                   Syntax 47 FOther SyntaxKind.NumericLiteral
                          [Token SyntaxKind.NumericLiteral "0"]];
           punct ","; sp;
           ident 48 FArguments "wrapper"]).


Definition appPath : string := "/src/app.ts".

(** The file [import { wrapper } from "./flags"; statement]. *)
Definition appFile (stmt : Node) : SourceFile :=
  sourceFile appPath 40 [importNamed 50 "wrapper" "./flags"; stmt].

(** A project of two files: the declaration of [wrapper] and one statement
    that refers to it. *)
Definition useSite (stmt : Node) : Project :=
  [wrapperFile; appFile stmt].

(** The function on the references of [wrapper] in such a project. *)
Definition replaceWrapper (stmt : Node) : Result ReplaceState :=
  replaceFunCallWithFalse Host.getNode Host.findReferences
                          (useSite stmt) wrapper.

(** The text of the statement once the references of [wrapper] are
    replaced. *)
Definition stmtTextAfter (stmt : Node) : option string :=
  match replaceWrapper stmt with
  | Ok st => Project.getText (project st) 41
  | Throw _ => None
  end.

(** The end-to-end project after a first replacement of [checkX]. *)
Definition afterFirstRun : Project :=
  match replaceFunCallWithFalse Host.getNode Host.findReferences
                                endToEnd checkX with
  | Ok st => project st
  | Throw _ => []
  end.

Definition guidOnes : string := "11111111-1111-1111-1111-111111111111".

(** [function checkF(){ return FLAG.isActivated("1111...", "2999-01-01"); }]:
    a date in the future. *)
Definition checkF : Node :=
  func 10 (ident 11 FName "checkF")
       (block 12 FBody
              [ret 13 (isActivatedCall 14
                         [str 18 FArguments guidOnes; punct ","; sp;
                          str 19 FArguments "2999-01-01"])]).

Definition futureFile : SourceFile :=
  sourceFile "/src/flags.ts" 1
             [importAs 2 "KillSwitch" "FLAG" "killswitches"; checkF].

(** [function checkS(){ return FLAG.isActivated(x); }]: the argument is an
    identifier of one character. *)
Definition checkS : Node :=
  func 10 (ident 11 FName "checkS")
       (block 12 FBody
              [ret 13 (isActivatedCall 14 [ident 18 FArguments "x"])]).

(** The state the first replacement of [checkX] ends in. *)
Definition firstRunState : ReplaceState :=
  {| project := afterFirstRun;
     workList := [20];
     refFiles := ["/src/flags.ts"] |}.

(** 2024-01-01T00:00:00Z *)
Definition threshold2024 : JSDate := Some 1704067200000%Z.

End Samples.

(* ================================================================= *)
(** * Properties of the locator *)

Lemma appendResult_empty_r (r : IFindKSResult) : appendResult r emptyResult = r.
Proof. destruct r. unfold appendResult. simpl. now rewrite !app_nil_r. Qed.

Lemma appendResult_assoc (a b c : IFindKSResult) :
  appendResult (appendResult a b) c = appendResult a (appendResult b c).
Proof. unfold appendResult. simpl. now rewrite !app_assoc. Qed.

Lemma fold_appending {X : Type} (step : IFindKSResult -> X -> IFindKSResult) :
  Appending step ->
  forall xs r,
    fold_left step xs r = appendResult r (fold_left step xs emptyResult).
Proof.
  intros Hstep xs. induction xs as [|x xs IH]; intros r; simpl.
  - now rewrite appendResult_empty_r.
  - rewrite IH. rewrite (IH (step emptyResult x)).
    rewrite (Hstep r x). apply appendResult_assoc.
Qed.

Lemma fold_appending_In {X : Type}
      (step : IFindKSResult -> X -> IFindKSResult) :
  Appending step ->
  forall xs D,
    In D (ksDecls (fold_left step xs emptyResult))
    <-> exists x, In x xs /\ In D (ksDecls (step emptyResult x)).
Proof.
  intros Hstep xs D. induction xs as [|x xs IH]; simpl.
  - split; [intros [] | intros [x [[] _]]].
  - rewrite (fold_appending step Hstep xs (step emptyResult x)).
    simpl. rewrite in_app_iff, IH. split.
    + intros [H | [y [Hy HD]]]; [exists x | exists y]; auto.
    + intros [y [[-> | Hy] HD]]; [left | right; exists y]; auto.
Qed.

Section LocatorFacts.

Variable uuidValidate : string -> bool.
Variable Date_parse : string -> option Z.
Variable extractDateFromComments : Node -> option string.
Variable getSourceFile : Project -> string -> option SourceFile.
Variable now : Z.

Local Abbreviation visitFunDecl' :=
  (visitFunDecl uuidValidate Date_parse extractDateFromComments).
Local Abbreviation visitFile' :=
  (visitFile uuidValidate Date_parse extractDateFromComments).
Local Abbreviation findKSDeclaration' :=
  (findKSDeclaration uuidValidate Date_parse extractDateFromComments
                     getSourceFile now).

Lemma push_empty (r : IFindKSResult) (D : Node) (g : string) :
  push r D g = appendResult r (push emptyResult D g).
Proof. reflexivity. Qed.

Lemma visitFunDecl_appending (target : option string) (threshold : JSDate) :
  Appending (visitFunDecl' target threshold).
Proof.
  intros r D. unfold visitFunDecl.
  repeat match goal with
         | |- context [match ?x with _ => _ end] => destruct x
         end;
    first [ apply push_empty | symmetry; apply appendResult_empty_r ].
Qed.

Lemma visitFile_appending (target : option string) (threshold : JSDate) :
  Appending (visitFile' target threshold).
Proof.
  intros r f. unfold visitFile.
  apply fold_appending, visitFunDecl_appending.
Qed.

(** What one declaration contributes: nothing, or itself with its
    identifier. *)
Lemma visitFunDecl_cases (target : option string) (threshold : JSDate)
      (D : Node) :
  visitFunDecl' target threshold emptyResult D = emptyResult
  \/ exists g, extractGuid D = Some g
               /\ visitFunDecl' target threshold emptyResult D
                  = {| ksDecls := [D]; guids := [g] |}.
Proof.
  unfold visitFunDecl.
  destruct (extractGuid D) as [g|] eqn:Hg;
    repeat match goal with
           | |- context [match ?x with _ => _ end] => destruct x
           end;
    first [ now left | right; exists g; split; reflexivity ].
Qed.

Lemma visitFunDecl_In (target : option string) (threshold : JSDate)
      (D D' : Node) :
  In D (ksDecls (visitFunDecl' target threshold emptyResult D')) -> D = D'.
Proof.
  destruct (visitFunDecl_cases target threshold D') as [-> | [g [_ ->]]];
    simpl; intuition.
Qed.

(** Membership in the result of the whole search comes down to the
    contribution of the declaration itself. *)
Lemma findKSDeclaration_In (project : Project) (options : ICoreOptions)
      (ksFile : SourceFile) (D : Node) :
  In ksFile (fst (selectFiles getSourceFile project options)) ->
  In D (funDeclsOf ksFile) ->
  In D (ksDecls (fst (findKSDeclaration' project options)))
  <-> In D (ksDecls (visitFunDecl' (targetId options)
                                   (thresholdOf now options) emptyResult D)).
Proof.
  intros Hf HD. unfold findKSDeclaration.
  destruct (selectFiles getSourceFile project options) as [ksFiles errors].
  simpl in *.
  change {| ksDecls := []; guids := [] |} with emptyResult.
  rewrite (fold_appending_In _ (visitFile_appending _ _)).
  split.
  - intros [f [_ H]]. unfold visitFile in H.
    rewrite (fold_appending_In _ (visitFunDecl_appending _ _)) in H.
    destruct H as [D' [_ H]].
    now rewrite <- (visitFunDecl_In _ _ _ _ H) in H.
  - intros H. exists ksFile. split; [assumption|]. unfold visitFile.
    rewrite (fold_appending_In _ (visitFunDecl_appending _ _)).
    now exists D.
Qed.

End LocatorFacts.

Lemma truthy_false (s : string) :
  JSString.truthy s = false <-> s = EmptyString.
Proof.
  unfold JSString.truthy. rewrite negb_false_iff. apply String.eqb_eq.
Qed.

Lemma truthy_true (s : string) :
  JSString.truthy s = true <-> s <> EmptyString.
Proof.
  unfold JSString.truthy. rewrite negb_true_iff. apply String.eqb_neq.
Qed.

Lemma JSDate_lt_Some (d : Z) (threshold : JSDate) :
  JSDate.lt (Some d) threshold = true
  <-> exists t, threshold = Some t /\ (d < t)%Z.
Proof.
  destruct threshold as [t|]; simpl.
  - rewrite Z.ltb_lt. split.
    + intros H. now exists t.
    + intros [t' [[= <-] H]]. exact H.
  - split; [discriminate | intros [t [[=] _]]].
Qed.

Lemma JSDate_lt_None (threshold : JSDate) : JSDate.lt None threshold = false.
Proof. reflexivity. Qed.

Section ScanMode.

Variable uuidValidate : string -> bool.
Variable Date_parse : string -> option Z.
Variable extractDateFromComments : Node -> option string.
Variable getSourceFile : Project -> string -> option SourceFile.
Variable now : Z.

(** No host takes the empty string for an identifier or for a date. *)
Hypothesis uuidValidate_empty : uuidValidate EmptyString = false.
Hypothesis Date_parse_empty : Date_parse EmptyString = None.

(** The date the code compares with the threshold is the graduation
    date. *)
Lemma dateStringOf_graduationDate (D : Node) :
  match dateStringOf Date_parse extractDateFromComments D with
  | Some s => if JSString.truthy s then Date_parse s else None
  | None => None
  end = graduationDate Date_parse extractDateFromComments D.
Proof.
  assert (Hfallback :
            match extractDateFromComments D with
            | Some s => if JSString.truthy s then Date_parse s else None
            | None => None
            end = extractDateFromComments D ?> Date_parse).
  { destruct (extractDateFromComments D) as [s|]; [|reflexivity].
    simpl. destruct (JSString.truthy s) eqn:Ts; [reflexivity|].
    apply truthy_false in Ts. subst s. now rewrite Date_parse_empty. }
  unfold dateStringOf, graduationDate.
  destruct (argumentText D 1) as [a|]; simpl; [|exact Hfallback].
  destruct (JSString.truthy a) eqn:Ta.
  - destruct (Date_parse a) as [d|] eqn:Pa; simpl.
    + now rewrite Ta, Pa.
    + exact Hfallback.
  - apply truthy_false in Ta. subst a. rewrite Date_parse_empty. simpl.
    exact Hfallback.
Qed.

Lemma scan_contribution (threshold : JSDate) (D : Node) :
  structuralMatch D = true ->
  In D (ksDecls (visitFunDecl uuidValidate Date_parse extractDateFromComments
                              None threshold emptyResult D))
  <-> exists g d t,
      extractGuid D = Some g
      /\ uuidValidate g = true
      /\ graduationDate Date_parse extractDateFromComments D = Some d
      /\ threshold = Some t
      /\ (d < t)%Z.
Proof.
  intros Hm. rewrite <- dateStringOf_graduationDate.
  unfold visitFunDecl. rewrite Hm. simpl negb. cbv iota.
  destruct (extractGuid D) as [g|].
  2: { split; [intros [] | intros (g & d & t & [=] & _)]. }
  destruct (JSString.truthy g) eqn:Tg; simpl andb.
  2: { apply truthy_false in Tg. subst g. split; [intros [] |].
       intros (g & d & t & [= <-] & U & _). congruence. }
  destruct (uuidValidate g) eqn:Ug.
  2: { split; [intros [] | intros (g' & d & t & [= <-] & U & _); congruence]. }
  destruct (dateStringOf Date_parse extractDateFromComments D) as [s|].
  2: { split; [intros [] | intros (g' & d & t & _ & _ & [=] & _)]. }
  destruct (JSString.truthy s).
  2: { split; [intros [] | intros (g' & d & t & _ & _ & [=] & _)]. }
  destruct (Date_parse s) as [d|].
  2: { rewrite JSDate_lt_None.
       split; [intros [] | intros (g' & d & t & _ & _ & [=] & _)]. }
  destruct (JSDate.lt (Some d) threshold) eqn:Hlt.
  - apply JSDate_lt_Some in Hlt. destruct Hlt as [t [Ht Hdt]].
    split; [intros _ | intros _; simpl; now left].
    now exists g, d, t.
  - split; [intros [] |].
    intros (g' & d' & t & _ & _ & [= <-] & Ht & Hdt).
    assert (JSDate.lt (Some d) threshold = true)
      by (apply JSDate_lt_Some; now exists t).
    congruence.
Qed.

(** C1. In scan mode (no target identifier in the options), a function
    declaration of a kept file that passes the structural match is in the
    result exactly when its identifier is a valid UUID, its graduation date
    exists (the second argument of the call when its text parses as a date,
    else the date of the comments) and that date is strictly earlier than
    the threshold; the threshold is the one of the caller and, without one,
    the load time minus 180 days. *)
Theorem scan_mode_selection (project : Project) (options : ICoreOptions)
        (ksFile : SourceFile) (D : Node) :
  targetId options = None ->
  In ksFile (fst (selectFiles getSourceFile project options)) ->
  In D (funDeclsOf ksFile) ->
  structuralMatch D = true ->
  thresholdOf now options
  = match thresholdDate options with
    | Some supplied => supplied
    | None => JSDate.ofNumber (now - 180 * 86400000)%Z
    end
  /\ (In D (ksDecls (fst (findKSDeclaration
                            uuidValidate Date_parse extractDateFromComments
                            getSourceFile now project options)))
      <-> exists g d t,
         extractGuid D = Some g
         /\ uuidValidate g = true
         /\ graduationDate Date_parse extractDateFromComments D = Some d
         /\ thresholdOf now options = Some t
         /\ (d < t)%Z).
Proof.
  intros Ht Hf HD Hm. split; [reflexivity|].
  rewrite (findKSDeclaration_In _ _ _ _ _ _ _ ksFile D Hf HD).
  rewrite Ht. now apply scan_contribution.
Qed.

End ScanMode.

Section TargetedMode.

Variable uuidValidate : string -> bool.
Variable Date_parse : string -> option Z.
Variable extractDateFromComments : Node -> option string.
Variable getSourceFile : Project -> string -> option SourceFile.
Variable now : Z.

Lemma targeted_contribution (t : string) (threshold : JSDate) (D : Node) :
  t <> EmptyString ->
  structuralMatch D = true ->
  In D (ksDecls (visitFunDecl uuidValidate Date_parse extractDateFromComments
                              (Some t) threshold emptyResult D))
  <-> extractGuid D = Some t.
Proof.
  intros Ht Hm. apply truthy_true in Ht.
  unfold visitFunDecl. rewrite Hm, Ht. simpl negb. cbv iota.
  destruct (extractGuid D) as [g|].
  2: { split; [intros [] | discriminate]. }
  destruct (String.eqb g t) eqn:E.
  - apply String.eqb_eq in E. subst g. simpl. intuition.
  - apply String.eqb_neq in E. split; [intros [] | intros [= ->]].
    now elim E.
Qed.

(** With a target, neither the validation of the identifier, nor the two
    sources of a date, nor the threshold take part. *)
Lemma targeted_visit_independent
      (uuidValidate' : string -> bool) (Date_parse' : string -> option Z)
      (extractDateFromComments' : Node -> option string)
      (t : string) (threshold threshold' : JSDate)
      (r : IFindKSResult) (D : Node) :
  t <> EmptyString ->
  visitFunDecl uuidValidate Date_parse extractDateFromComments
               (Some t) threshold r D
  = visitFunDecl uuidValidate' Date_parse' extractDateFromComments'
                 (Some t) threshold' r D.
Proof.
  intros Ht. apply truthy_true in Ht. unfold visitFunDecl. now rewrite Ht.
Qed.

End TargetedMode.

Lemma fold_left_ext {A B : Type} (f g : A -> B -> A) :
  (forall a b, f a b = g a b) ->
  forall l a, fold_left f l a = fold_left g l a.
Proof.
  intros H l. induction l as [|b l IH]; intros a; simpl; [reflexivity|].
  now rewrite H, IH.
Qed.

(** C2 (amended). With a non-empty target identifier in the options, a
    structurally matching declaration of a kept file is in the result
    exactly when its extracted identifier is the target; the UUID
    validation, the date of the declaration and the threshold play no part
    in the result. *)
Theorem targeted_mode_selection
        (uuidValidate : string -> bool) (Date_parse : string -> option Z)
        (extractDateFromComments : Node -> option string)
        (getSourceFile : Project -> string -> option SourceFile) (now : Z)
        (project : Project) (options : ICoreOptions) (t : string)
        (ksFile : SourceFile) (D : Node) :
  targetId options = Some t ->
  t <> EmptyString ->
  In ksFile (fst (selectFiles getSourceFile project options)) ->
  In D (funDeclsOf ksFile) ->
  structuralMatch D = true ->
  (In D (ksDecls (fst (findKSDeclaration
                         uuidValidate Date_parse extractDateFromComments
                         getSourceFile now project options)))
   <-> extractGuid D = Some t)
  /\ (forall uuidValidate' Date_parse' extractDateFromComments' now' threshold',
         findKSDeclaration uuidValidate' Date_parse' extractDateFromComments'
                           getSourceFile now' project
                           {| targetId := Some t;
                              ksFilePath := ksFilePath options;
                              thresholdDate := threshold' |}
         = findKSDeclaration uuidValidate Date_parse extractDateFromComments
                             getSourceFile now project options).
Proof.
  intros Ht Hne Hf HD Hm. split.
  - rewrite (findKSDeclaration_In _ _ _ _ _ _ _ ksFile D Hf HD).
    rewrite Ht. now apply targeted_contribution.
  - intros uv' dp' ec' now' th'. unfold findKSDeclaration, selectFiles.
    simpl. rewrite Ht.
    match goal with
    | |- (let '(_, _) := ?x in _) = _ => destruct x as [ksFiles errors]
    end.
    f_equal. apply fold_left_ext. intros r f. unfold visitFile.
    apply fold_left_ext. intros r' D'.
    now apply targeted_visit_independent.
Qed.

(** C2, the claim at the empty target: the options carry a target, the
    identifier of the declaration is that target, and the declaration is
    not selected. *)
Lemma targeted_mode_empty_target :
  ~ (forall (project : Project) (options : ICoreOptions) (t : string)
            (ksFile : SourceFile) (D : Node),
        targetId options = Some t ->
        In ksFile (fst (selectFiles Host.getSourceFile project options)) ->
        In D (funDeclsOf ksFile) ->
        structuralMatch D = true ->
        (In D (ksDecls (fst (findKSDeclaration
                               Host.uuidValidate Host.Date_parse
                               Host.extractDateFromComments
                               Host.getSourceFile Host.now project options)))
         <-> extractGuid D = Some t)).
Proof.
  intros H.
  specialize (H [Samples.emptyGuidFile]
                (mkOptions (Some EmptyString) None None) EmptyString
                Samples.emptyGuidFile Samples.checkY eq_refl).
  assert (Hin : In Samples.checkY
                   (ksDecls (fst (findKSDeclaration
                                    Host.uuidValidate Host.Date_parse
                                    Host.extractDateFromComments
                                    Host.getSourceFile Host.now
                                    [Samples.emptyGuidFile]
                                    (mkOptions (Some EmptyString)
                                               None None))))).
  { apply H; vm_compute; auto. }
  vm_compute in Hin. exact Hin.
Qed.

Lemma targeted_mode_selection_witness :
  (In Samples.checkF
      (ksDecls (fst (findKSDeclaration
                       Host.uuidValidate Host.Date_parse
                       Host.extractDateFromComments Host.getSourceFile Host.now
                       [Samples.futureFile]
                       (mkOptions (Some Samples.guidOnes) None None))))
   <-> extractGuid Samples.checkF = Some Samples.guidOnes)
  /\ (forall uuidValidate' Date_parse' extractDateFromComments' now' threshold',
         findKSDeclaration uuidValidate' Date_parse' extractDateFromComments'
                           Host.getSourceFile now' [Samples.futureFile]
                           {| targetId := Some Samples.guidOnes;
                              ksFilePath := None;
                              thresholdDate := threshold' |}
         = findKSDeclaration Host.uuidValidate Host.Date_parse
                             Host.extractDateFromComments
                             Host.getSourceFile Host.now [Samples.futureFile]
                             (mkOptions (Some Samples.guidOnes) None None)).
Proof.
  apply (targeted_mode_selection
           Host.uuidValidate Host.Date_parse Host.extractDateFromComments
           Host.getSourceFile Host.now [Samples.futureFile]
           (mkOptions (Some Samples.guidOnes) None None) Samples.guidOnes
           Samples.futureFile Samples.checkF).
  - reflexivity.
  - discriminate.
  - vm_compute. auto.
  - vm_compute. auto.
  - vm_compute. reflexivity.
Defined.

(** The declaration with a date in the future: selected by its identifier,
    left out by the scan. *)
Example future_date_selected_by_target :
  Host.Date_parse (Build.quoted "2999-01-01") = Some 32472144000000%Z
  /\ fst (findKSDeclaration
            Host.uuidValidate Host.Date_parse Host.extractDateFromComments
            Host.getSourceFile Host.now [Samples.futureFile]
            (mkOptions (Some Samples.guidOnes) None None))
     = {| ksDecls := [Samples.checkF]; guids := [Samples.guidOnes] |}
  /\ fst (findKSDeclaration
            Host.uuidValidate Host.Date_parse Host.extractDateFromComments
            Host.getSourceFile Host.now [Samples.futureFile]
            (mkOptions None None None))
     = {| ksDecls := []; guids := [] |}.
Proof. repeat split; vm_compute; reflexivity. Qed.

Lemma scan_mode_selection_witness :
  thresholdOf Host.now (mkOptions None None None)
  = JSDate.ofNumber (Host.now - 180 * 86400000)%Z
  /\ (In Samples.checkX
         (ksDecls (fst (findKSDeclaration
                          Host.uuidValidate Host.Date_parse
                          Host.extractDateFromComments Host.getSourceFile
                          Host.now Samples.endToEnd
                          (mkOptions None None None))))
      <-> exists g d t,
         extractGuid Samples.checkX = Some g
         /\ Host.uuidValidate g = true
         /\ graduationDate Host.Date_parse Host.extractDateFromComments
                           Samples.checkX = Some d
         /\ thresholdOf Host.now (mkOptions None None None) = Some t
         /\ (d < t)%Z).
Proof.
  apply (scan_mode_selection
           Host.uuidValidate Host.Date_parse Host.extractDateFromComments
           Host.getSourceFile Host.now eq_refl eq_refl Samples.endToEnd
           (mkOptions None None None) Samples.flagsFile Samples.checkX).
  - reflexivity.
  - vm_compute. auto.
  - vm_compute. auto.
  - vm_compute. reflexivity.
Defined.

(* ----------------------------------------------------------------- *)
(** ** The structural match *)

Lemma isKind_getKind (k : SyntaxKind.t) (n : Node) :
  Node.isKind k n = true <-> Node.getKind n = k.
Proof. unfold Node.isKind. apply SyntaxKind.eqb_eq. Qed.

Lemma getExpressionIfKind_Some (k : SyntaxKind.t) (n e : Node) :
  Node.getExpressionIfKind k n = Some e
  <-> Node.getExpression n = Some e /\ Node.getKind e = k.
Proof.
  unfold Node.getExpressionIfKind.
  destruct (Node.getExpression n) as [x|].
  - destruct (Node.isKind k x) eqn:K.
    + apply isKind_getKind in K. split.
      * intros [= ->]. now split.
      * now intros [[= ->] _].
    + split; [discriminate|]. intros [[= ->] K'].
      apply isKind_getKind in K'. congruence.
  - split; [discriminate | now intros [? _]].
Qed.

(** C5 (amended). A function declaration passes the structural match
    exactly when the first return statement among its descendants returns
    a call whose callee is a property access named [isActivated]; no other
    return statement is looked at.  A declaration that does not pass leaves
    the result as it was, whatever the mode. *)
Theorem structural_match_first_return (D : Node) :
  (structuralMatch D = true
   <-> exists ret callExp accessExp,
      Node.getFirstDescendantByKind SyntaxKind.ReturnStatement D = Some ret
      /\ Node.getExpression ret = Some callExp
      /\ Node.getKind callExp = SyntaxKind.CallExpression
      /\ Node.getExpression callExp = Some accessExp
      /\ Node.getKind accessExp = SyntaxKind.PropertyAccessExpression
      /\ Node.getName accessExp = Some "isActivated")
  /\ (forall uuidValidate Date_parse extractDateFromComments
             target threshold result,
         structuralMatch D = false ->
         visitFunDecl uuidValidate Date_parse extractDateFromComments
                      target threshold result D = result).
Proof.
  split.
  - unfold structuralMatch, accessName, returnedCall, strictEq, optBind.
    destruct (Node.getFirstDescendantByKind SyntaxKind.ReturnStatement D)
      as [ret|].
    2: { split; [discriminate | intros (? & ? & ? & [=] & _)]. }
    destruct (Node.getExpressionIfKind SyntaxKind.CallExpression ret)
      as [c|] eqn:Hc.
    2: { split; [discriminate|].
         intros (r & c & a & [= <-] & He & Hk & _).
         assert (Node.getExpressionIfKind SyntaxKind.CallExpression ret
                 = Some c) by now apply getExpressionIfKind_Some.
         congruence. }
    apply getExpressionIfKind_Some in Hc. destruct Hc as [Hce Hck].
    destruct (Node.getExpressionIfKind SyntaxKind.PropertyAccessExpression c)
      as [a|] eqn:Ha.
    2: { split; [discriminate|].
         intros (r & c' & a & [= <-] & He & _ & Hae & Hak & _).
         assert (c' = c) by congruence. subst c'.
         assert (Node.getExpressionIfKind
                   SyntaxKind.PropertyAccessExpression c = Some a)
           by now apply getExpressionIfKind_Some.
         congruence. }
    apply getExpressionIfKind_Some in Ha. destruct Ha as [Hae Hak].
    destruct (Node.getName a) as [name|] eqn:Hn.
    2: { split; [discriminate|].
         intros (r & c' & a' & [= <-] & He & _ & Hae' & _ & Hn').
         assert (c' = c) by congruence. subst c'.
         assert (a' = a) by congruence. subst a'. congruence. }
    split.
    + intros E. apply String.eqb_eq in E. subst name.
      now exists ret, c, a.
    + intros (r & c' & a' & [= <-] & He & _ & Hae' & _ & Hn').
      assert (c' = c) by congruence. subst c'.
      assert (a' = a) by congruence. subst a'.
      assert (name = "isActivated") by congruence. subst name.
      apply String.eqb_refl.
  - intros uv dp ec target threshold result Hm.
    unfold visitFunDecl. now rewrite Hm.
Qed.

(** C5, the claim on a declaration with two return statements: it passes
    the match. *)
Lemma structural_match_two_returns :
  ~ (forall D : Node,
        structuralMatch D = true ->
        List.length (Node.getDescendantsOfKind SyntaxKind.ReturnStatement D)
        = 1).
Proof.
  intros H. specialize (H Samples.checkZ eq_refl). vm_compute in H.
  discriminate H.
Qed.

(* ----------------------------------------------------------------- *)
(** ** The file hint *)

(** C6 (amended). When the options carry a non-empty file path that the
    provider does not resolve, the search does not fail: it writes one line
    about the path to the error console and returns empty lists. *)
Theorem unresolved_file_hint
        (uuidValidate : string -> bool) (Date_parse : string -> option Z)
        (extractDateFromComments : Node -> option string)
        (getSourceFile : Project -> string -> option SourceFile) (now : Z)
        (project : Project) (options : ICoreOptions) (path : string) :
  ksFilePath options = Some path ->
  path <> EmptyString ->
  getSourceFile project path = None ->
  findKSDeclaration uuidValidate Date_parse extractDateFromComments
                    getSourceFile now project options
  = ({| ksDecls := []; guids := [] |},
     [String.append "Invalid KS file path: " path]).
Proof.
  intros Hp Hne Hnone. apply truthy_true in Hne.
  unfold findKSDeclaration, selectFiles. now rewrite Hp, Hne, Hnone.
Qed.

Lemma unresolved_file_hint_witness :
  findKSDeclaration Host.uuidValidate Host.Date_parse
                    Host.extractDateFromComments Host.getSourceFile Host.now
                    Samples.endToEnd
                    (mkOptions None (Some "/src/missing.ts") None)
  = ({| ksDecls := []; guids := [] |},
     ["Invalid KS file path: /src/missing.ts"]).
Proof.
  apply (unresolved_file_hint
           Host.uuidValidate Host.Date_parse Host.extractDateFromComments
           Host.getSourceFile Host.now Samples.endToEnd
           (mkOptions None (Some "/src/missing.ts") None) "/src/missing.ts").
  - reflexivity.
  - discriminate.
  - vm_compute. reflexivity.
Defined.

(** C6, the claim at the empty path: no file of the project has it, and
    the whole project is scanned. *)
Lemma unresolved_empty_file_hint :
  ~ (forall (project : Project) (options : ICoreOptions) (path : string),
        ksFilePath options = Some path ->
        Host.getSourceFile project path = None ->
        let r := fst (findKSDeclaration
                        Host.uuidValidate Host.Date_parse
                        Host.extractDateFromComments Host.getSourceFile
                        Host.now project options) in
        ksDecls r = [] /\ guids r = []).
Proof.
  intros H.
  specialize (H Samples.endToEnd
                (mkOptions None (Some EmptyString)
                           (Some Samples.threshold2024))
                EmptyString eq_refl eq_refl).
  vm_compute in H. destruct H as [H _]. discriminate H.
Qed.

(* ----------------------------------------------------------------- *)
(** ** Alignment of the two lists *)

Lemma Aligned_append (a b : IFindKSResult) :
  Aligned a -> Aligned b -> Aligned (appendResult a b).
Proof.
  unfold Aligned, appendResult. simpl. intros Ha Hb.
  now rewrite !map_app, Ha, Hb.
Qed.

Lemma Aligned_fold {X : Type} (step : IFindKSResult -> X -> IFindKSResult) :
  Appending step ->
  (forall x, Aligned (step emptyResult x)) ->
  forall xs, Aligned (fold_left step xs emptyResult).
Proof.
  intros Happ Hstep xs. induction xs as [|x xs IH]; simpl.
  - reflexivity.
  - rewrite (fold_appending step Happ). now apply Aligned_append.
Qed.

Lemma Aligned_nth (r : IFindKSResult) :
  Aligned r ->
  List.length (ksDecls r) = List.length (guids r)
  /\ forall i D g,
      nth_error (ksDecls r) i = Some D ->
      nth_error (guids r) i = Some g ->
      extractGuid D = Some g.
Proof.
  intros H. split.
  - rewrite <- (length_map extractGuid), H. apply length_map.
  - intros i D g HD Hg.
    apply (map_nth_error extractGuid) in HD.
    apply (map_nth_error Some) in Hg.
    unfold Aligned in H. congruence.
Qed.

(** C9. The two lists of the result have the same length and, at every
    index, the identifier is the one extracted from the declaration at that
    index; in both modes, for every project and every options record. *)
Theorem result_index_aligned
        (uuidValidate : string -> bool) (Date_parse : string -> option Z)
        (extractDateFromComments : Node -> option string)
        (getSourceFile : Project -> string -> option SourceFile) (now : Z)
        (project : Project) (options : ICoreOptions) :
  let r := fst (findKSDeclaration
                  uuidValidate Date_parse extractDateFromComments
                  getSourceFile now project options) in
  List.length (ksDecls r) = List.length (guids r)
  /\ forall i D g,
      nth_error (ksDecls r) i = Some D ->
      nth_error (guids r) i = Some g ->
      extractGuid D = Some g.
Proof.
  apply Aligned_nth. unfold findKSDeclaration.
  destruct (selectFiles getSourceFile project options) as [ksFiles errors].
  simpl. change {| ksDecls := []; guids := [] |} with emptyResult.
  apply Aligned_fold; [apply visitFile_appending|].
  intros f. unfold visitFile.
  apply Aligned_fold; [apply visitFunDecl_appending|].
  intros D.
  destruct (visitFunDecl_cases uuidValidate Date_parse extractDateFromComments
                               (targetId options) (thresholdOf now options) D)
    as [-> | [g [Hg ->]]].
  - reflexivity.
  - unfold Aligned. simpl. now rewrite Hg.
Qed.

(* ================================================================= *)
(** * Properties of the tree operations *)

Lemma Node_induction (P : Node -> Prop) :
  (forall k t, P (Token k t)) ->
  (forall i f k cs, Forall P cs -> P (Syntax i f k cs)) ->
  forall n, P n.
Proof.
  intros HT HS. fix IH 1. intros [k t | i f k cs].
  - apply HT.
  - apply HS. induction cs as [|c cs IHcs]; constructor.
    + apply IH.
    + exact IHcs.
Qed.

Lemma find_app {A : Type} (p : A -> bool) (l1 l2 : list A) :
  find p (l1 ++ l2)
  = match find p l1 with Some x => Some x | None => find p l2 end.
Proof.
  induction l1 as [|a l1 IH]; simpl; [reflexivity|].
  destruct (p a); [reflexivity | exact IH].
Qed.

Lemma getDescendants_Syntax (i : NodeId) (f : Field) (k : SyntaxKind.t)
      (cs : list Node) :
  Node.getDescendants (Syntax i f k cs) = flat_map Node.nodesOf cs.
Proof.
  simpl. apply flat_map_ext. intros [k' t | i' f' k' cs']; reflexivity.
Qed.

Lemma nodesOf_Syntax (i : NodeId) (f : Field) (k : SyntaxKind.t)
      (cs : list Node) :
  Node.nodesOf (Syntax i f k cs)
  = Syntax i f k cs :: flat_map Node.nodesOf cs.
Proof.
  unfold Node.nodesOf. simpl Node.isSyntax. cbv iota.
  now rewrite getDescendants_Syntax.
Qed.

Lemma fold_max_ge_init (i : nat) (l : list nat) :
  i <= fold_right Nat.max i l.
Proof. induction l; simpl; lia. Qed.

Lemma fold_max_ge_In (i x : nat) (l : list nat) :
  In x l -> x <= fold_right Nat.max i l.
Proof.
  induction l as [|a l IH]; simpl; [intros []|].
  intros [-> | H]; [lia | specialize (IH H); lia].
Qed.

(** Identities are bounded by [maxId]. *)
Lemma maxId_bound (n m : Node) :
  In m (Node.nodesOf n) -> Project.idOf m <= Node.maxId n.
Proof.
  revert m. induction n as [k t | i f k cs IH] using Node_induction;
    intros m Hm.
  - destruct Hm.
  - rewrite nodesOf_Syntax in Hm. simpl Node.maxId.
    destruct Hm as [<- | Hm].
    + simpl. apply fold_max_ge_init.
    + apply in_flat_map in Hm. destruct Hm as [c [Hc Hm]].
      rewrite Forall_forall in IH. specialize (IH c Hc m Hm).
      etransitivity; [exact IH|].
      apply fold_max_ge_In. now apply in_map.
Qed.

Lemma FreshIn_child (j i : NodeId) (f : Field) (k : SyntaxKind.t)
      (cs : list Node) (c : Node) :
  FreshIn j (Syntax i f k cs) -> In c cs -> FreshIn j c.
Proof.
  intros H Hc m Hm. apply H. rewrite nodesOf_Syntax. right.
  apply in_flat_map. now exists c.
Qed.

Lemma FreshIn_self (j i : NodeId) (f : Field) (k : SyntaxKind.t)
      (cs : list Node) :
  FreshIn j (Syntax i f k cs) -> Nat.eqb i j = false.
Proof.
  intros H. apply (H (Syntax i f k cs)). rewrite nodesOf_Syntax. now left.
Qed.

Lemma FreshIn_maxId (j : NodeId) (n : Node) : Node.maxId n < j -> FreshIn j n.
Proof.
  intros Hlt m Hm. pose proof (maxId_bound n m Hm) as Hb.
  destruct m as [k t | i f k cs]; [reflexivity|].
  simpl in *. apply Nat.eqb_neq. lia.
Qed.

Lemma freshId_FreshIn (p : Project) (f : SourceFile) :
  In f p -> FreshIn (Project.freshId p) (root f).
Proof.
  intros Hf. apply FreshIn_maxId. unfold Project.freshId.
  apply Nat.lt_succ_r. apply fold_max_ge_In.
  now apply (in_map (fun f => Node.maxId (root f))).
Qed.

Section ReplaceNode.

Variable i j : NodeId.
Variable new : Node.
Hypothesis new_id : Node.hasId j new = true.
Hypothesis new_leaf : Node.getDescendants new = [].
Hypothesis new_childless : Node.forEachChild new = [].

Lemma new_isSyntax : Node.isSyntax new = true.
Proof using new_id.
  generalize new_id. generalize new.
  intros [k t | i' f k cs] H; [discriminate H | reflexivity].
Qed.

Lemma nodesOf_new : Node.nodesOf new = [new].
Proof using new_id new_leaf.
  unfold Node.nodesOf. now rewrite new_isSyntax, new_leaf.
Qed.

(** The new node is found exactly when the replaced one was there. *)
Lemma findNode_replaceNode (n : Node) :
  FreshIn j n ->
  Node.findNode j (Node.replaceNode i new n)
  = if isSome (Node.findNode i n) then Some new else None.
Proof using new_id new_leaf.
  unfold Node.findNode.
  induction n as [k t | i' f k cs IH] using Node_induction; intros Hfresh.
  - reflexivity.
  - simpl Node.replaceNode. destruct (Nat.eqb i' i) eqn:E.
    + rewrite nodesOf_new, nodesOf_Syntax. simpl find.
      now rewrite new_id, E.
    + rewrite !nodesOf_Syntax. simpl find. rewrite E.
      rewrite (FreshIn_self _ _ _ _ _ Hfresh).
      assert (Hcs : forall c, In c cs -> FreshIn j c)
        by (intros c Hc; eapply FreshIn_child; eauto).
      clear Hfresh E. induction cs as [|c cs IHcs]; [reflexivity|].
      simpl. rewrite !find_app.
      inversion IH as [|? ? Hc Hrest]; subst.
      rewrite (Hc (Hcs c (or_introl eq_refl))).
      destruct (find (Node.hasId i) (Node.nodesOf c)); [reflexivity|].
      apply IHcs; [exact Hrest|]. intros c' Hc'. apply Hcs. now right.
Qed.

Lemma hasId_replaceNode (c : Node) :
  FreshIn j c ->
  Node.hasId j (Node.replaceNode i new c) = Node.hasId i c.
Proof using new_id.
  intros Hfresh. destruct c as [k t | i' f k cs]; [reflexivity|].
  simpl. destruct (Nat.eqb i' i) eqn:E; [exact new_id|].
  simpl. eapply FreshIn_self; eauto.
Qed.

Lemma isSyntax_replaceNode (c : Node) :
  Node.isSyntax (Node.replaceNode i new c) = Node.isSyntax c.
Proof using new_id.
  destruct c as [k t | i' f k cs]; [reflexivity|].
  simpl. destruct (Nat.eqb i' i); [apply new_isSyntax | reflexivity].
Qed.

Lemma hasChild_replaceNode (cs : list Node) :
  (forall c, In c cs -> FreshIn j c) ->
  existsb (Node.hasId j)
          (filter Node.isSyntax (map (Node.replaceNode i new) cs))
  = existsb (Node.hasId i) (filter Node.isSyntax cs).
Proof using new_id.
  intros Hcs. induction cs as [|c cs IH]; [reflexivity|].
  simpl. rewrite isSyntax_replaceNode.
  assert (IH' := IH (fun c' Hc' => Hcs c' (or_intror Hc'))).
  destruct (Node.isSyntax c); [|exact IH'].
  simpl. rewrite IH'. f_equal. apply hasId_replaceNode. apply Hcs. now left.
Qed.

Lemma existsb_hasId_false (cs : list Node) (c : Node) :
  existsb (Node.hasId i) (filter Node.isSyntax cs) = false ->
  In c cs -> Node.hasId i c = false.
Proof.
  intros H Hc. destruct (Node.hasId i c) eqn:E; [|reflexivity].
  rewrite <- H. symmetry. apply existsb_exists. exists c. split; [|exact E].
  apply filter_In. split; [exact Hc|]. now destruct c.
Qed.

(** The parent of the new node is the parent of the replaced one, with
    the replacement made among its children. *)
Lemma findParent_replaceNode (n : Node) :
  FreshIn j n ->
  Node.hasId i n = false ->
  Node.findParent j (Node.replaceNode i new n)
  = option_map (Node.replaceBelow i new) (Node.findParent i n).
Proof using new_id new_leaf new_childless.
  unfold Node.findParent.
  induction n as [k t | i' f k cs IH] using Node_induction;
    intros Hfresh Hroot.
  - reflexivity.
  - simpl in Hroot. simpl Node.replaceNode. rewrite Hroot.
    rewrite !nodesOf_Syntax. simpl find.
    unfold Node.forEachChild at 1 3. simpl Node.allChildren.
    assert (Hcs : forall c, In c cs -> FreshIn j c)
      by (intros c Hc; eapply FreshIn_child; eauto).
    rewrite (hasChild_replaceNode cs Hcs).
    destruct (existsb (Node.hasId i) (filter Node.isSyntax cs)) eqn:Hchild.
    + reflexivity.
    + assert (Hno : forall c, In c cs -> Node.hasId i c = false)
        by (intros c Hc; eapply existsb_hasId_false; eauto).
      clear Hfresh Hchild Hroot.
      induction cs as [|c cs IHcs]; [reflexivity|].
      simpl. rewrite !find_app.
      inversion IH as [|? ? Hc Hrest]; subst.
      rewrite (Hc (Hcs c (or_introl eq_refl)) (Hno c (or_introl eq_refl))).
      destruct (find (fun p => existsb (Node.hasId i) (Node.forEachChild p))
                     (Node.nodesOf c)); [reflexivity|].
      apply IHcs; [exact Hrest | |]; intros c' Hc'; [apply Hcs | apply Hno];
        now right.
Qed.

End ReplaceNode.

Lemma nodesOf_isSyntax (n m : Node) :
  In m (Node.nodesOf n) -> Node.isSyntax m = true.
Proof.
  revert m. induction n as [k t | i f k cs IH] using Node_induction;
    intros m Hm.
  - destruct Hm.
  - rewrite nodesOf_Syntax in Hm. destruct Hm as [<- | Hm]; [reflexivity|].
    apply in_flat_map in Hm. destruct Hm as [c [Hc Hm]].
    rewrite Forall_forall in IH. exact (IH c Hc m Hm).
Qed.

Lemma hasId_idOf (m : Node) :
  Node.isSyntax m = true -> Node.hasId (Project.idOf m) m = true.
Proof. destruct m; [discriminate | intros _; apply Nat.eqb_refl]. Qed.

(** A node found as a parent is a live node of the tree. *)
Lemma findParent_live (i : NodeId) (n q : Node) :
  Node.findParent i n = Some q ->
  exists m, Node.findNode (Project.idOf q) n = Some m.
Proof.
  intros H. apply find_some in H. destruct H as [Hq _].
  unfold Node.findNode.
  destruct (find (Node.hasId (Project.idOf q)) (Node.nodesOf n)) as [m|] eqn:E.
  - now exists m.
  - pose proof (find_none _ _ E q Hq) as Hnone.
    rewrite (hasId_idOf q (nodesOf_isSyntax n q Hq)) in Hnone.
    discriminate Hnone.
Qed.

Lemma lookup_In (p : Project) (i : NodeId) (f : SourceFile) (n : Node) :
  Project.lookup p i = Some (f, n) ->
  In f p /\ Node.findNode i (root f) = Some n.
Proof.
  induction p as [|g p IH]; simpl; [discriminate|].
  destruct (Node.findNode i (root g)) as [m|] eqn:E.
  - intros [= <- <-]. split; [now left | exact E].
  - intros H. destruct (IH H) as [Hin Hf]. split; [now right | exact Hf].
Qed.

Lemma lookup_exists (p : Project) (i : NodeId) (f : SourceFile) (n : Node) :
  In f p -> Node.findNode i (root f) = Some n ->
  exists g m, Project.lookup p i = Some (g, m).
Proof.
  induction p as [|h p IH]; simpl; [intros []|].
  intros Hin Hf. destruct (Node.findNode i (root h)) as [m|] eqn:E.
  - now exists h, m.
  - destruct Hin as [-> | Hin]; [congruence | now apply IH].
Qed.

Lemma getParent_live (p : Project) (i : NodeId) (q : Node) :
  Project.getParent p i = Some q ->
  exists g m, Project.lookup p (Project.idOf q) = Some (g, m).
Proof.
  unfold Project.getParent, optBind.
  destruct (Project.lookup p i) as [[f n]|] eqn:E; [|discriminate].
  simpl. intros H. apply lookup_In in E. destruct E as [Hin _].
  destruct (findParent_live _ _ _ H) as [m Hm].
  exact (lookup_exists p _ f m Hin Hm).
Qed.

Section ReplaceInProject.

Variable i j : NodeId.
Variable new : Node.
Variable p : Project.
Hypothesis new_id : Node.hasId j new = true.
Hypothesis new_leaf : Node.getDescendants new = [].
Hypothesis new_childless : Node.forEachChild new = [].
Hypothesis fresh : forall f, In f p -> FreshIn j (root f).

Lemma lookup_replaceNode :
  Project.lookup (Project.replaceNode i new p) j
  = option_map (fun fn => (Project.replacedFile i new (fst fn), new))
               (Project.lookup p i).
Proof using new_id new_leaf fresh.
  revert fresh. generalize p. clear p.
  intros p. induction p as [|f p IH]; intros Hfresh; [reflexivity|].
  simpl. rewrite (findNode_replaceNode i j new new_id new_leaf).
  2: { apply Hfresh. now left. }
  destruct (Node.findNode i (root f)); [reflexivity|].
  apply IH. intros g Hg. apply Hfresh. now right.
Qed.

(** The parent of the node that takes the place of [i] is the parent [i]
    had. *)
Lemma getParent_replaceNode :
  (forall f, In f p -> Node.hasId i (root f) = false) ->
  Project.getParent (Project.replaceNode i new p) j
  = option_map (Node.replaceBelow i new) (Project.getParent p i).
Proof using new_id new_leaf new_childless fresh.
  intros Hroot. unfold Project.getParent. rewrite lookup_replaceNode.
  destruct (Project.lookup p i) as [[f n]|] eqn:E; [|reflexivity].
  simpl. apply lookup_In in E. destruct E as [Hin _].
  apply (findParent_replaceNode i j new new_id new_leaf new_childless).
  - now apply fresh.
  - now apply Hroot.
Qed.

End ReplaceInProject.

Lemma idOf_replaceBelow (i : NodeId) (new q : Node) :
  Project.idOf (Node.replaceBelow i new q) = Project.idOf q.
Proof. now destruct q. Qed.

(** The project with a live node replaced by a node of a given text: the
    new node is live, it has that text, and, when the replaced node is not
    the root of a file, its parent is the parent of the node it replaces. *)
Lemma replaced_spec (p : Project) (n : Node) (text : string) :
  (exists f m, Project.lookup p (Project.idOf n) = Some (f, m)) ->
  let new := Project.parseText (Project.freshId p) (Node.getField n) text in
  let p' := Project.replaceNode (Project.idOf n) new p in
  Project.getText p' (Project.freshId p) = Some text
  /\ ((forall f, In f p -> Node.hasId (Project.idOf n) (root f) = false) ->
      option_map Project.idOf (Project.getParent p' (Project.freshId p))
      = option_map Project.idOf (Project.getParent p (Project.idOf n))).
Proof.
  intros [f [m Hlive]]. cbv zeta.
  set (j := Project.freshId p).
  set (new := Project.parseText j (Node.getField n) text).
  assert (Hid : Node.hasId j new = true) by apply Nat.eqb_refl.
  assert (Hfresh : forall f, In f p -> FreshIn j (root f))
    by (intros g Hg; now apply freshId_FreshIn).
  split.
  - unfold Project.getText.
    rewrite (lookup_replaceNode _ j new p Hid eq_refl Hfresh), Hlive.
    reflexivity.
  - intros Hroot.
    rewrite (getParent_replaceNode _ j new p Hid eq_refl eq_refl Hfresh Hroot).
    destruct (Project.getParent p (Project.idOf n)); [|reflexivity].
    simpl. now rewrite idOf_replaceBelow.
Qed.

(** [replaceWithText] succeeds exactly when the text does not run into
    its neighbours, and then it makes that replacement. *)
Lemma replaceWithText_Ok (p : Project) (n : Node) (text : string) :
  Project.fusion p n text = Some false ->
  Project.replaceWithText p n text
  = Ok (Project.replaceNode
          (Project.idOf n)
          (Project.parseText (Project.freshId p) (Node.getField n) text) p,
        Project.freshId p).
Proof. intros H. unfold Project.replaceWithText. now rewrite H. Qed.

Lemma replaceWithText_inv (p : Project) (n : Node) (text : string)
      (r : Project * NodeId) :
  Project.replaceWithText p n text = Ok r ->
  Project.fusion p n text = Some false
  /\ r = (Project.replaceNode
            (Project.idOf n)
            (Project.parseText (Project.freshId p) (Node.getField n) text) p,
          Project.freshId p).
Proof.
  unfold Project.replaceWithText.
  destruct (Project.fusion p n text) as [[|]|]; try discriminate.
  intros [= <-]. now split.
Qed.

Lemma replaceWithText_fused (p : Project) (n : Node) (text : string) :
  Project.fusion p n text = Some true ->
  Project.replaceWithText p n text = Throw manipulationError.
Proof. intros H. unfold Project.replaceWithText. now rewrite H. Qed.

(* ================================================================= *)
(** * Properties of the replacement engine *)

Lemma isNegationb_spec (n : Node) : isNegationb n = true <-> isNegation n.
Proof.
  unfold isNegationb, isNegation. rewrite andb_true_iff, isKind_getKind.
  destruct (Node.getOperatorToken n) as [op|].
  - rewrite SyntaxKind.eqb_eq. split; intros [H1 H2]; split; congruence.
  - split; intros [H1 H2]; discriminate.
Qed.

Lemma negationOf_unfold (p : Project) (parent : Node) :
  negationOf p parent
  = match Project.getParent p (Project.idOf parent) with
    | Some q => if isNegationb q then Some q else None
    | None => None
    end.
Proof.
  unfold negationOf, Project.getParentIfKind, isNegationb, optBind.
  destruct (Project.getParent p (Project.idOf parent)) as [q|]; [|reflexivity].
  destruct (Node.isKind SyntaxKind.PrefixUnaryExpression q); [|reflexivity].
  simpl. destruct (Node.getOperatorToken q) as [op|]; reflexivity.
Qed.

Lemma negationOf_Some (p : Project) (parent negation : Node) :
  negationOf p parent = Some negation
  <-> Project.getParent p (Project.idOf parent) = Some negation
      /\ isNegation negation.
Proof.
  rewrite negationOf_unfold.
  destruct (Project.getParent p (Project.idOf parent)) as [q|].
  - destruct (isNegationb q) eqn:E.
    + apply isNegationb_spec in E. split.
      * intros [= <-]. now split.
      * now intros [[= <-] _].
    + split; [discriminate|]. intros [[= <-] H].
      apply isNegationb_spec in H. congruence.
  - split; [discriminate | now intros [? _]].
Qed.


Lemma fold_Throw {X : Type} (f : ReplaceState -> X -> Result ReplaceState)
      (xs : list X) (m : string) :
  fold_left (fun acc x => st <- acc ;; f st x) xs (Throw m) = Throw m.
Proof. induction xs as [|x xs IH]; [reflexivity | exact IH]. Qed.

Lemma afterReplacement_project (st : ReplaceState) (refFile : SourceFile)
      (replaced : Project * NodeId) :
  project (afterReplacement st refFile replaced) = fst replaced.
Proof.
  unfold afterReplacement.
  now destruct (Project.getParent (fst replaced) (snd replaced)).
Qed.

(** After the replacement of a live node that is not the root of a file
    and has a parent, that parent and the file are recorded. *)
Lemma afterReplacement_recorded (st : ReplaceState) (refFile : SourceFile)
      (target outer : Node) (text : string) :
  Project.getParent (project st) (Project.idOf target) = Some outer ->
  (exists f m, Project.lookup (project st) (Project.idOf target)
               = Some (f, m)) ->
  (forall f, In f (project st) ->
             Node.hasId (Project.idOf target) (root f) = false) ->
  afterReplacement st refFile (withLiteral (project st) target text)
  = {| project := fst (withLiteral (project st) target text);
       workList := setAdd Nat.eqb (Project.idOf outer) (workList st);
       refFiles := setAdd String.eqb (filePath refFile) (refFiles st) |}.
Proof.
  intros Houter Hlive Hroot.
  destruct (replaced_spec (project st) target text Hlive) as [_ Hnew].
  cbv zeta in Hnew. specialize (Hnew Hroot). rewrite Houter in Hnew.
  unfold afterReplacement, withLiteral. simpl fst. simpl snd.
  destruct (Project.getParent _ (Project.freshId (project st)))
    as [newParent|]; [|discriminate Hnew].
  injection Hnew as Hnew. now rewrite Hnew.
Qed.


Section EngineFacts.

Variable Ref : Type.
Variable getNode : Project -> Ref -> NodeId.

(** A step depends on the reference through its node only. *)
Lemma processRef_resolved (st : ReplaceState) (ref : Ref) :
  processRef getNode st ref
  = processRef Host.getNode st (getNode (project st) ref).
Proof. reflexivity. Qed.

Lemma processRef_skip (st : ReplaceState) (ref : Ref)
      (refFile : SourceFile) (refNode : Node) :
  Project.lookup (project st) (getNode (project st) ref)
  = Some (refFile, refNode) ->
  (forall parent,
      Project.getParent (project st) (getNode (project st) ref)
      = Some parent ->
      Node.getKind parent <> SyntaxKind.CallExpression) ->
  processRef getNode st ref = Ok st.
Proof.
  intros Hlive Hparent. unfold processRef. rewrite Hlive.
  destruct (Project.getParent (project st) (getNode (project st) ref))
    as [parent|]; [|reflexivity].
  destruct (Node.isKind SyntaxKind.CallExpression parent) eqn:K;
    [|reflexivity].
  apply isKind_getKind in K. now elim (Hparent parent).
Qed.

(** The node a reference under a call makes the engine replace, and the
    text it is replaced with. *)
Lemma processRef_call (st : ReplaceState) (ref : Ref)
      (refFile : SourceFile) (refNode parent : Node) :
  Project.lookup (project st) (getNode (project st) ref)
  = Some (refFile, refNode) ->
  Project.getParent (project st) (getNode (project st) ref) = Some parent ->
  Node.getKind parent = SyntaxKind.CallExpression ->
  processRef getNode st ref
  = (replaced <-
       match negationOf (project st) parent with
       | Some negation => Project.replaceWithText (project st) negation "true"
       | None => Project.replaceWithText (project st) parent "false"
       end ;;
     Ok (afterReplacement st refFile replaced)).
Proof.
  intros Hlive Hparent Hkind. apply isKind_getKind in Hkind.
  unfold processRef. rewrite Hlive, Hparent, Hkind. simpl negb. cbv iota.
  destruct (match negationOf (project st) parent with
            | Some negation =>
                Project.replaceWithText (project st) negation "true"
            | None => Project.replaceWithText (project st) parent "false"
            end) as [replaced|m]; [|reflexivity].
  simpl. unfold afterReplacement.
  now destruct (Project.getParent (fst replaced) (snd replaced)).
Qed.

Lemma processRef_negated (st : ReplaceState) (ref : Ref)
      (refFile : SourceFile) (refNode parent negation : Node) :
  Project.lookup (project st) (getNode (project st) ref)
  = Some (refFile, refNode) ->
  Project.getParent (project st) (getNode (project st) ref) = Some parent ->
  Node.getKind parent = SyntaxKind.CallExpression ->
  Project.getParent (project st) (Project.idOf parent) = Some negation ->
  isNegation negation ->
  Project.fusion (project st) negation "true" = Some false ->
  processRef getNode st ref
  = Ok (afterReplacement st refFile
                         (withLiteral (project st) negation "true")).
Proof.
  intros Hlive Hparent Hkind Hneg Hn Hfusion.
  rewrite (processRef_call st ref refFile refNode parent Hlive Hparent Hkind).
  assert (E : negationOf (project st) parent = Some negation)
    by now apply negationOf_Some.
  now rewrite E, (replaceWithText_Ok _ _ _ Hfusion).
Qed.


(** *** From a step to the function *)

Lemma processRefs_app (a b : list Ref) (st : ReplaceState) :
  processRefs getNode (a ++ b) st
  = (st' <- processRefs getNode a st ;; processRefs getNode b st').
Proof.
  unfold processRefs. rewrite fold_left_app.
  destruct (fold_left _ a (Ok st)) as [st1|m]; [reflexivity|].
  apply fold_Throw.
Qed.

Lemma processRefs_cons (ref : Ref) (rest : list Ref) (st : ReplaceState) :
  processRefs getNode (ref :: rest) st
  = (st' <- processRef getNode st ref ;; processRefs getNode rest st').
Proof.
  unfold processRefs. simpl.
  destruct (processRef getNode st ref) as [st1|m]; [reflexivity|].
  apply fold_Throw.
Qed.

Variable findReferences : Project -> Node -> list (list Ref).

(** The function goes through the references of all the symbols in
    order. *)
Lemma replace_concat (p : Project) (ksDecl : Node) :
  replaceFunCallWithFalse getNode findReferences p ksDecl
  = processRefs getNode (List.concat (findReferences p ksDecl))
                (initialState p).
Proof.
  unfold replaceFunCallWithFalse.
  change {| project := p; workList := []; refFiles := [] |}
    with (initialState p).
  generalize (initialState p).
  induction (findReferences p ksDecl) as [|refs rest IH]; intros st.
  - reflexivity.
  - simpl. rewrite processRefs_app.
    destruct (processRefs getNode refs st) as [st1|m].
    + apply IH.
    + apply (fold_Throw (fun st refs => processRefs getNode refs st)).
Qed.

(** The function at a reference: what comes before it gives a state, the
    reference makes its step from that state, and what comes after goes on
    from there. *)
Lemma replace_split (p : Project) (ksDecl : Node) (pre post : list Ref)
      (ref : Ref) (st : ReplaceState) :
  List.concat (findReferences p ksDecl) = pre ++ ref :: post ->
  processRefs getNode pre (initialState p) = Ok st ->
  replaceFunCallWithFalse getNode findReferences p ksDecl
  = (st' <- processRef getNode st ref ;; processRefs getNode post st').
Proof.
  intros Hrefs Hpre.
  rewrite replace_concat, Hrefs, processRefs_app, Hpre.
  exact (processRefs_cons ref post st).
Qed.


(* ----------------------------------------------------------------- *)
(** ** References that are not under a call *)

(** C8 (amended). A reference whose node, when the loop reaches it, has
    no call expression for parent makes a step that changes nothing, neither
    the project nor the set of modified nodes nor the files: the function
    returns what it returns for the other references alone.  (Another
    reference can still replace a call that encloses this one.) *)
Theorem non_call_reference_untouched (p : Project) (ksDecl : Node)
        (pre post : list Ref) (ref : Ref) (st : ReplaceState)
        (refFile : SourceFile) (refNode : Node) :
  List.concat (findReferences p ksDecl) = pre ++ ref :: post ->
  processRefs getNode pre (initialState p) = Ok st ->
  Project.lookup (project st) (getNode (project st) ref)
  = Some (refFile, refNode) ->
  (forall parent,
      Project.getParent (project st) (getNode (project st) ref)
      = Some parent ->
      Node.getKind parent <> SyntaxKind.CallExpression) ->
  processRef getNode st ref = Ok st
  /\ replaceFunCallWithFalse getNode findReferences p ksDecl
     = processRefs getNode (pre ++ post) (initialState p).
Proof.
  intros Hrefs Hpre Hlive Hparent.
  pose proof (processRef_skip st ref refFile refNode Hlive Hparent) as Hstep.
  split; [exact Hstep|].
  rewrite (replace_split p ksDecl pre post ref st Hrefs Hpre), Hstep.
  now rewrite processRefs_app, Hpre.
Qed.

(* ----------------------------------------------------------------- *)
(** ** A second run *)

Lemma processRefs_untouched (refs : list Ref) (st : ReplaceState) :
  (forall ref, In ref refs -> processRef getNode st ref = Ok st) ->
  processRefs getNode refs st = Ok st.
Proof.
  unfold processRefs. induction refs as [|ref refs IH]; intros H.
  - reflexivity.
  - simpl. rewrite (H ref (or_introl eq_refl)).
    apply IH. intros r Hr. apply H. now right.
Qed.

(** C7. When no reference of the declaration has a call expression for
    parent, as after a complete replacement, the function returns an empty
    set of modified nodes and an empty list of files, and leaves the
    project as it is. *)
Theorem second_run_is_empty (p : Project) (ksDecl : Node) :
  (forall refSymbol ref,
      In refSymbol (findReferences p ksDecl) ->
      In ref refSymbol ->
      (exists refFile refNode,
          Project.lookup p (getNode p ref) = Some (refFile, refNode))
      /\ forall parent,
          Project.getParent p (getNode p ref) = Some parent ->
          Node.getKind parent <> SyntaxKind.CallExpression) ->
  replaceFunCallWithFalse getNode findReferences p ksDecl
  = Ok {| project := p; workList := []; refFiles := [] |}.
Proof.
  intros H. unfold replaceFunCallWithFalse.
  induction (findReferences p ksDecl) as [|refSymbol rest IH].
  - reflexivity.
  - simpl. rewrite processRefs_untouched.
    + apply IH. intros s r Hs. apply H. now right.
    + intros ref Href.
      destruct (H refSymbol ref (or_introl eq_refl) Href)
        as [[refFile [refNode Hlive]] Hparent].
      exact (processRef_skip
               {| project := p; workList := []; refFiles := [] |}
               ref refFile refNode Hlive Hparent).
Qed.

(* ----------------------------------------------------------------- *)
(** ** References passed as arguments *)


End EngineFacts.

(* ----------------------------------------------------------------- *)
(** ** The theorems on the sample statements *)


(** The three statements of the negation law, through the whole
    function. *)
Example negation_law_examples :
  Project.getText (Samples.useSite Samples.negatedCall) 41
  = Some "!wrapper();"
  /\ Samples.stmtTextAfter Samples.negatedCall = Some "true;"
  /\ Project.getText (Samples.useSite Samples.bareCall) 41
     = Some "wrapper();"
  /\ Samples.stmtTextAfter Samples.bareCall = Some "false;"
  /\ Project.getText (Samples.useSite Samples.boundCall) 41
     = Some "const x = wrapper();"
  /\ Samples.stmtTextAfter Samples.boundCall = Some "const x = false;".
Proof. repeat split; vm_compute; reflexivity. Qed.


Lemma non_call_reference_untouched_witness :
  processRef Host.getNode (initialState (Samples.useSite Samples.alias)) 45
  = Ok (initialState (Samples.useSite Samples.alias))
  /\ Samples.replaceWrapper Samples.alias
     = processRefs Host.getNode ([11; 52] ++ [])
                   (initialState (Samples.useSite Samples.alias)).
Proof.
  eapply (non_call_reference_untouched
            NodeId Host.getNode Host.findReferences
            (Samples.useSite Samples.alias) Samples.wrapper
            [11; 52] [] 45
            (initialState (Samples.useSite Samples.alias))).
  - reflexivity.
  - reflexivity.
  - reflexivity.
  - intros parent Hp. vm_compute in Hp. injection Hp as <-. discriminate.
Defined.

(** [const f = wrapper;] through the whole function. *)
Example alias_left_alone :
  Samples.replaceWrapper Samples.alias
  = Ok {| project := Samples.useSite Samples.alias;
          workList := [];
          refFiles := [] |}.
Proof. vm_compute. reflexivity. Qed.

(** C8, as it is stated, fails on [h(g ? wrapper : 0, wrapper);]: the
    parent of the first reference is a conditional expression, not a call,
    yet the function, for the second reference, replaces the call around
    both by [false] and records the file; the node of the first reference
    is no longer in the project. *)
Lemma non_call_reference_inside_replaced_call :
  Project.getText (Samples.useSite Samples.sharedCall) 41
  = Some "h(g ? wrapper : 0, wrapper);"
  /\ In 46 (List.concat
              (Host.findReferences (Samples.useSite Samples.sharedCall)
                                   Samples.wrapper))
  /\ (exists refFile refNode parent,
         Project.lookup (Samples.useSite Samples.sharedCall) 46
         = Some (refFile, refNode)
         /\ filePath refFile = Samples.appPath
         /\ Project.getParent (Samples.useSite Samples.sharedCall) 46
            = Some parent
         /\ Node.getKind parent = SyntaxKind.ConditionalExpression)
  /\ exists st,
      Samples.replaceWrapper Samples.sharedCall = Ok st
      /\ Project.getText (project st) 41 = Some "false;"
      /\ Project.lookup (project st) 46 = None
      /\ workList st = [41]
      /\ refFiles st = [Samples.appPath].
Proof.
  split; [vm_compute; reflexivity|]. split; [vm_compute; tauto|]. split.
  - do 3 eexists.
    split; [reflexivity|]. split; [reflexivity|]. split; reflexivity.
  - eexists. split; [vm_compute; reflexivity|].
    repeat split; vm_compute; reflexivity.
Qed.

Lemma second_run_is_empty_witness :
  replaceFunCallWithFalse Host.getNode Host.findReferences
                          Samples.afterFirstRun Samples.checkX
  = Ok {| project := Samples.afterFirstRun; workList := []; refFiles := [] |}.
Proof.
  apply (second_run_is_empty NodeId Host.getNode Host.findReferences
                             Samples.afterFirstRun Samples.checkX).
  intros refSymbol ref Hs Hr. vm_compute in Hs.
  destruct Hs as [<- | []]. destruct Hr as [<- | []]. split.
  - eexists. eexists. reflexivity.
  - intros parent Hp. vm_compute in Hp. injection Hp as <-. discriminate.
Defined.

(** The first run on the end-to-end project changes it; the second one
    finds nothing left to replace. *)
Example first_then_second_run :
  (exists st,
      replaceFunCallWithFalse Host.getNode Host.findReferences
                              Samples.endToEnd Samples.checkX = Ok st
      /\ project st = Samples.afterFirstRun
      /\ workList st = [20]
      /\ refFiles st = ["/src/flags.ts"])
  /\ Samples.afterFirstRun <> Samples.endToEnd
  /\ replaceFunCallWithFalse Host.getNode Host.findReferences
                             Samples.afterFirstRun Samples.checkX
     = Ok {| project := Samples.afterFirstRun;
             workList := [];
             refFiles := [] |}.
Proof.
  split; [|split].
  - eexists. split; [vm_compute; reflexivity|].
    repeat split; vm_compute; reflexivity.
  - intros E. vm_compute in E. discriminate E.
  - vm_compute. reflexivity.
Qed.


(** [run(wrapper);] through the whole function. *)
Example argument_reference_example :
  Project.getText (Samples.useSite Samples.passedAsArgument) 41
  = Some "run(wrapper);"
  /\ exists st,
    Samples.replaceWrapper Samples.passedAsArgument = Ok st
    /\ Project.getText (project st) 41 = Some "false;"
    /\ workList st = [41]
    /\ refFiles st = [Samples.appPath].
Proof.
  split; [reflexivity|]. eexists. split; [vm_compute; reflexivity|].
  repeat split; vm_compute; reflexivity.
Qed.


(* ----------------------------------------------------------------- *)
(** ** End to end *)

Section EndToEnd.

Variable uuidValidate : string -> bool.
Variable Date_parse : string -> option Z.
Variable extractDateFromComments : Node -> option string.
Variable getSourceFile : Project -> string -> option SourceFile.
Variable now : Z.
Variable Ref : Type.
Variable getNode : Project -> Ref -> NodeId.
Variable findReferences : Project -> Node -> list (list Ref).

(** A declaration with a valid identifier and a second argument that
    parses to a date before the threshold is pushed. *)
Lemma scan_selects (threshold : JSDate) (r : IFindKSResult) (D : Node)
      (g a : string) (d : Z) :
  structuralMatch D = true ->
  extractGuid D = Some g ->
  g <> EmptyString ->
  uuidValidate g = true ->
  argumentText D 1 = Some a ->
  a <> EmptyString ->
  Date_parse a = Some d ->
  JSDate.lt (Some d) threshold = true ->
  visitFunDecl uuidValidate Date_parse extractDateFromComments
               None threshold r D
  = push r D g.
Proof.
  intros Hm Hg Hgne Hu Ha Hane Hd Hlt.
  apply truthy_true in Hgne. apply truthy_true in Hane.
  unfold visitFunDecl, dateStringOf.
  rewrite Hm, Hg, Hgne, Hu, Ha, Hane, Hd.
  cbn [negb andb isSome]. cbv beta iota.
  now rewrite Hane, Hd, Hlt.
Qed.

(** A declaration whose second argument does not parse and whose comments
    give no date is left out. *)
Lemma scan_rejects_without_date (threshold : JSDate) (r : IFindKSResult)
      (D : Node) (a : string) :
  argumentText D 1 = Some a ->
  Date_parse a = None ->
  extractDateFromComments D = None ->
  visitFunDecl uuidValidate Date_parse extractDateFromComments
               None threshold r D
  = r.
Proof.
  intros Ha Hd Hc. unfold visitFunDecl, dateStringOf.
  rewrite Ha, Hd, Hc, andb_false_r.
  destruct (structuralMatch D); [|reflexivity]. simpl.
  destruct (extractGuid D) as [g|]; [|reflexivity].
  now destruct (JSString.truthy g && uuidValidate g).
Qed.

(** C4. The project of the example: a file with a kill-switch import,
    [checkX] and the call site.  When the text of the second argument,
    quotes included, parses to a date before 2024-01-01, the search with
    that threshold selects [checkX], and the replacement turns the call
    site into [if (true) { doWork(); }].  The references of [checkX] are
    its name in the declaration and the callee of the call site. *)
Theorem end_to_end (d : Z) (declared used : Ref) :
  uuidValidate Samples.guidX = true ->
  Date_parse (Build.quoted "2023-01-01") = Some d ->
  (d < 1704067200000)%Z ->
  findReferences Samples.endToEnd Samples.checkX = [[declared; used]] ->
  getNode Samples.endToEnd declared = 11 ->
  getNode Samples.endToEnd used = 23 ->
  keepFile Samples.flagsFile = true
  /\ Node.getText Samples.checkX
     = String.append
         "function checkX(){ return FLAG.isActivated("
         (String.append
            (Build.quoted "3fa85f64-5717-4562-b3fc-2c963f66afa6")
            (String.append
               ", " (String.append (Build.quoted "2023-01-01") "); }")))
  /\ Project.getText Samples.endToEnd 20 = Some "if (!checkX()) { doWork(); }"
  /\ fst (findKSDeclaration
            uuidValidate Date_parse extractDateFromComments getSourceFile now
            Samples.endToEnd
            (mkOptions None None (Some (Some 1704067200000%Z))))
     = {| ksDecls := [Samples.checkX]; guids := [Samples.guidX] |}
  /\ exists st,
      replaceFunCallWithFalse getNode findReferences
                              Samples.endToEnd Samples.checkX
      = Ok st
      /\ Project.getText (project st) 20 = Some "if (true) { doWork(); }"
      /\ workList st = [20]
      /\ refFiles st = ["/src/flags.ts"].
Proof.
  intros Hu Hd Hlt Hrefs Hdeclared Hused.
  split; [reflexivity|]. split; [reflexivity|]. split; [reflexivity|]. split.
  - unfold findKSDeclaration, selectFiles. simpl ksFilePath. cbv iota.
    change (filter keepFile Samples.endToEnd) with [Samples.flagsFile].
    simpl fst. simpl fold_left. unfold visitFile.
    change (funDeclsOf Samples.flagsFile) with [Samples.checkX].
    simpl fold_left.
    rewrite (scan_selects _ _ Samples.checkX Samples.guidX
                          (Build.quoted "2023-01-01") d);
      try reflexivity; try discriminate; try assumption.
    simpl. now apply Z.ltb_lt.
  - rewrite replace_concat, Hrefs. simpl List.concat.
    rewrite processRefs_cons, processRef_resolved.
    simpl project. rewrite Hdeclared.
    assert (E : processRef Host.getNode (initialState Samples.endToEnd) 11
                = Ok (initialState Samples.endToEnd))
      by (vm_compute; reflexivity).
    rewrite E. simpl bind.
    rewrite processRefs_cons, processRef_resolved.
    simpl project. rewrite Hused.
    eexists. split; [vm_compute; reflexivity|].
    repeat split; vm_compute; reflexivity.
Qed.

(** Without a date in the second argument or in the comments, the search
    leaves [checkX] out. *)
Lemma end_to_end_without_date (threshold : option JSDate) :
  Date_parse (Build.quoted "2023-01-01") = None ->
  extractDateFromComments Samples.checkX = None ->
  fst (findKSDeclaration
         uuidValidate Date_parse extractDateFromComments getSourceFile now
         Samples.endToEnd (mkOptions None None threshold))
  = {| ksDecls := []; guids := [] |}.
Proof.
  intros Hd Hc. unfold findKSDeclaration, selectFiles. simpl ksFilePath.
  cbv iota.
  change (filter keepFile Samples.endToEnd) with [Samples.flagsFile].
  simpl fst. simpl fold_left. unfold visitFile.
  change (funDeclsOf Samples.flagsFile) with [Samples.checkX].
  simpl fold_left.
  now apply (scan_rejects_without_date _ _ Samples.checkX
                                       (Build.quoted "2023-01-01")).
Qed.

End EndToEnd.

Lemma end_to_end_witness :
  fst (findKSDeclaration
         Host.uuidValidate Host.Date_parse Host.extractDateFromComments
         Host.getSourceFile Host.now Samples.endToEnd
         (mkOptions None None (Some (Some 1704067200000%Z))))
  = {| ksDecls := [Samples.checkX]; guids := [Samples.guidX] |}
  /\ exists st,
    replaceFunCallWithFalse Host.getNode Host.findReferences
                            Samples.endToEnd Samples.checkX = Ok st
    /\ Project.getText (project st) 20 = Some "if (true) { doWork(); }"
    /\ workList st = [20]
    /\ refFiles st = ["/src/flags.ts"].
Proof.
  destruct (end_to_end
              Host.uuidValidate Host.Date_parse Host.extractDateFromComments
              Host.getSourceFile Host.now NodeId Host.getNode
              Host.findReferences 1672531200000%Z 11 23)
    as [_ [_ [_ [Hfind Hreplace]]]].
  - reflexivity.
  - reflexivity.
  - reflexivity.
  - reflexivity.
  - reflexivity.
  - reflexivity.
  - split; [exact Hfind | exact Hreplace].
Defined.

(* ================================================================= *)
(** * Further properties of the locator *)

Lemma fold_appending_ksDecls {X : Type}
      (step : IFindKSResult -> X -> IFindKSResult) :
  Appending step ->
  forall xs,
    ksDecls (fold_left step xs emptyResult)
    = flat_map (fun x => ksDecls (step emptyResult x)) xs.
Proof.
  intros Hstep xs. induction xs as [|x xs IH]; [reflexivity|].
  simpl. rewrite (fold_appending step Hstep xs (step emptyResult x)).
  simpl. now rewrite IH.
Qed.

Lemma fold_appending_guids {X : Type}
      (step : IFindKSResult -> X -> IFindKSResult) :
  Appending step ->
  forall xs,
    guids (fold_left step xs emptyResult)
    = flat_map (fun x => guids (step emptyResult x)) xs.
Proof.
  intros Hstep xs. induction xs as [|x xs IH]; [reflexivity|].
  simpl. rewrite (fold_appending step Hstep xs (step emptyResult x)).
  simpl. now rewrite IH.
Qed.

Lemma flat_map_filter {A B : Type} (g : A -> list B) (q : B -> bool)
      (l : list A) :
  flat_map (fun a => filter q (g a)) l = filter q (flat_map g l).
Proof.
  induction l as [|a l IH]; [reflexivity|].
  simpl. now rewrite filter_app, IH.
Qed.

Lemma flat_map_singleton_filter {A : Type} (q : A -> bool) (l : list A) :
  flat_map (fun a => if q a then [a] else []) l = filter q l.
Proof.
  induction l as [|a l IH]; [reflexivity|].
  simpl. rewrite IH. now destruct (q a).
Qed.

Section LocatorExtras.

Variable uuidValidate : string -> bool.
Variable Date_parse : string -> option Z.
Variable extractDateFromComments : Node -> option string.
Variable getSourceFile : Project -> string -> option SourceFile.
Variable now : Z.

Local Abbreviation visit :=
  (visitFunDecl uuidValidate Date_parse extractDateFromComments).
Local Abbreviation selected :=
  (selects uuidValidate Date_parse extractDateFromComments).
Local Abbreviation find_ks :=
  (findKSDeclaration uuidValidate Date_parse extractDateFromComments
                     getSourceFile now).

Lemma contribution_ksDecls (target : option string) (threshold : JSDate)
      (D : Node) :
  ksDecls (visit target threshold emptyResult D)
  = if selected target threshold D then [D] else [].
Proof.
  unfold selects.
  destruct (visitFunDecl_cases uuidValidate Date_parse extractDateFromComments
                               target threshold D) as [-> | [g [_ ->]]];
    reflexivity.
Qed.

Lemma contribution_guids (target : option string) (threshold : JSDate)
      (D : Node) :
  guids (visit target threshold emptyResult D)
  = if selected target threshold D
    then match extractGuid D with Some g => [g] | None => [] end
    else [].
Proof.
  unfold selects.
  destruct (visitFunDecl_cases uuidValidate Date_parse extractDateFromComments
                               target threshold D) as [-> | [g [Hg ->]]].
  - reflexivity.
  - simpl. now rewrite Hg.
Qed.

Lemma selected_structure (target : option string) (threshold : JSDate)
      (D : Node) :
  selected target threshold D = true ->
  structuralMatch D = true /\ exists g, extractGuid D = Some g.
Proof.
  unfold selects, visitFunDecl.
  destruct (structuralMatch D); [|discriminate].
  destruct (extractGuid D) as [g|].
  - intros _. split; [reflexivity | now exists g].
  - simpl. destruct target as [t|]; [destruct (JSString.truthy t)|];
      discriminate.
Qed.

Lemma ksDecls_visitFile (target : option string) (threshold : JSDate)
      (f : SourceFile) :
  ksDecls (visitFile uuidValidate Date_parse extractDateFromComments
                     target threshold emptyResult f)
  = filter (selected target threshold) (funDeclsOf f).
Proof.
  unfold visitFile.
  rewrite (fold_appending_ksDecls _ (visitFunDecl_appending _ _ _ _ _)).
  rewrite <- flat_map_singleton_filter. apply flat_map_ext.
  intros D. apply contribution_ksDecls.
Qed.

Lemma ksDecls_find (project : Project) (options : ICoreOptions) :
  ksDecls (fst (find_ks project options))
  = filter (selected (targetId options) (thresholdOf now options))
           (flat_map funDeclsOf
                     (fst (selectFiles getSourceFile project options))).
Proof.
  unfold findKSDeclaration.
  destruct (selectFiles getSourceFile project options) as [ksFiles errors].
  simpl fst. change {| ksDecls := []; guids := [] |} with emptyResult.
  rewrite (fold_appending_ksDecls _ (visitFile_appending _ _ _ _ _)).
  rewrite <- flat_map_filter. apply flat_map_ext.
  intros f. apply ksDecls_visitFile.
Qed.

(** X1. The declarations of the result are the function declarations of
    the selected files, in the order of the files and of the declarations
    in each file, without those the loop body does not push. *)
Theorem result_is_ordered_filter (project : Project)
        (options : ICoreOptions) :
  ksDecls (fst (find_ks project options))
  = filter (selected (targetId options) (thresholdOf now options))
           (flat_map funDeclsOf
                     (fst (selectFiles getSourceFile project options))).
Proof. apply ksDecls_find. Qed.

Lemma guids_find (project : Project) (options : ICoreOptions) (g : string) :
  In g (guids (fst (find_ks project options))) ->
  exists D,
    selected (targetId options) (thresholdOf now options) D = true
    /\ extractGuid D = Some g.
Proof.
  unfold findKSDeclaration.
  destruct (selectFiles getSourceFile project options) as [ksFiles errors].
  simpl fst. change {| ksDecls := []; guids := [] |} with emptyResult.
  rewrite (fold_appending_guids _ (visitFile_appending _ _ _ _ _)).
  intros H. apply in_flat_map in H. destruct H as [f [_ H]].
  unfold visitFile in H.
  rewrite (fold_appending_guids _ (visitFunDecl_appending _ _ _ _ _)) in H.
  apply in_flat_map in H. destruct H as [D [_ H]].
  rewrite contribution_guids in H. exists D.
  destruct (selected (targetId options) (thresholdOf now options) D);
    [|destruct H].
  split; [reflexivity|].
  destruct (extractGuid D) as [g'|]; [|destruct H].
  destruct H as [-> | []]. reflexivity.
Qed.

(** X2. Every declaration of the result is a function declaration among
    the direct children of the root of a selected file, it passes the
    structural match, and the call it returns has a first argument. *)
Theorem result_sound (project : Project) (options : ICoreOptions) :
  Forall
    (fun D =>
       (exists ksFile,
           In ksFile (fst (selectFiles getSourceFile project options))
           /\ In D (Node.forEachChild (root ksFile)))
       /\ Node.getKind D = SyntaxKind.FunctionDeclaration
       /\ structuralMatch D = true
       /\ exists a, argumentText D 0 = Some a)
    (ksDecls (fst (find_ks project options))).
Proof.
  rewrite ksDecls_find. apply Forall_forall. intros D HD.
  apply filter_In in HD. destruct HD as [Hcand Hsel].
  apply in_flat_map in Hcand. destruct Hcand as [f [Hf HD]].
  unfold funDeclsOf, Node.getChildrenOfKind in HD.
  apply filter_In in HD. destruct HD as [Hchild Hkind].
  apply isKind_getKind in Hkind.
  destruct (selected_structure _ _ _ Hsel) as [Hm [g Hg]].
  split; [now exists f|]. split; [exact Hkind|]. split; [exact Hm|].
  unfold extractGuid in Hg.
  destruct (argumentText D 0) as [a|]; [now exists a | discriminate].
Qed.

End LocatorExtras.

Section SelectionRules.

Variable uuidValidate : string -> bool.
Variable Date_parse : string -> option Z.
Variable extractDateFromComments : Node -> option string.

Local Abbreviation selected :=
  (selects uuidValidate Date_parse extractDateFromComments).

Lemma selected_falsy_target (target : option string) (threshold : JSDate)
      (D : Node) :
  falsy target ->
  selected target threshold D = selected None threshold D.
Proof. intros [-> | ->]; reflexivity. Qed.

Lemma selected_targeted (t : string) (threshold : JSDate) (D : Node) :
  t <> EmptyString ->
  selected (Some t) threshold D = true ->
  extractGuid D = Some t.
Proof.
  intros Ht. apply truthy_true in Ht. unfold selects, visitFunDecl.
  rewrite Ht. destruct (structuralMatch D); [|discriminate]. simpl negb.
  cbv iota. destruct (extractGuid D) as [g|]; [|discriminate].
  destruct (String.eqb g t) eqn:E; [|discriminate].
  apply String.eqb_eq in E. now subst g.
Qed.

Lemma selected_targeted_threshold (t : string) (threshold threshold' : JSDate)
      (D : Node) :
  t <> EmptyString ->
  selected (Some t) threshold D = selected (Some t) threshold' D.
Proof.
  intros Ht. unfold selects.
  now rewrite (targeted_visit_independent
                 uuidValidate Date_parse extractDateFromComments
                 uuidValidate Date_parse extractDateFromComments
                 t threshold threshold' emptyResult D Ht).
Qed.

(** What a declaration needs to be pushed by the scan. *)
Lemma selected_scan (threshold : JSDate) (D : Node) :
  selected None threshold D = true ->
  exists g s d,
    extractGuid D = Some g
    /\ g <> EmptyString
    /\ uuidValidate g = true
    /\ dateStringOf Date_parse extractDateFromComments D = Some s
    /\ Date_parse s = Some d
    /\ JSDate.lt (Some d) threshold = true.
Proof.
  unfold selects, visitFunDecl.
  destruct (structuralMatch D); [|discriminate]. simpl negb. cbv iota.
  destruct (extractGuid D) as [g|]; [|discriminate].
  destruct (JSString.truthy g) eqn:Tg; [|discriminate].
  destruct (uuidValidate g) eqn:Ug; [|discriminate]. simpl andb. cbv iota.
  destruct (dateStringOf Date_parse extractDateFromComments D) as [s|];
    [|discriminate].
  destruct (JSString.truthy s); [|discriminate].
  destruct (Date_parse s) as [d|] eqn:Pd; [|discriminate].
  destruct (JSDate.lt (Some d) threshold) eqn:L; [|discriminate].
  intros _. exists g, s, d. apply truthy_true in Tg.
  repeat split; try reflexivity; assumption.
Qed.

Lemma selected_scan_intro (threshold : JSDate) (D : Node) (g s : string)
      (d : Z) :
  structuralMatch D = true ->
  extractGuid D = Some g ->
  g <> EmptyString ->
  uuidValidate g = true ->
  dateStringOf Date_parse extractDateFromComments D = Some s ->
  s <> EmptyString ->
  Date_parse s = Some d ->
  JSDate.lt (Some d) threshold = true ->
  selected None threshold D = true.
Proof.
  intros Hm Hg Hgne Hu Hs Hsne Hd Hlt.
  apply truthy_true in Hgne. apply truthy_true in Hsne.
  unfold selects, visitFunDecl.
  now rewrite Hm, Hg, Hgne, Hu, Hs, Hsne, Hd, Hlt.
Qed.

Lemma selected_scan_truthy_date (threshold : JSDate) (D : Node) :
  selected None threshold D = true ->
  exists s, dateStringOf Date_parse extractDateFromComments D = Some s
            /\ s <> EmptyString.
Proof.
  unfold selects, visitFunDecl.
  destruct (structuralMatch D); [|discriminate]. simpl negb. cbv iota.
  destruct (extractGuid D) as [g|]; [|discriminate].
  destruct (JSString.truthy g && uuidValidate g); [|discriminate].
  destruct (dateStringOf Date_parse extractDateFromComments D) as [s|];
    [|discriminate].
  destruct (JSString.truthy s) eqn:Ts; [|discriminate].
  intros _. exists s. apply truthy_true in Ts. now split.
Qed.

Lemma selected_monotone (target : option string) (t1 t2 : Z) (D : Node) :
  (t1 <= t2)%Z ->
  selected target (Some t1) D = true ->
  selected target (Some t2) D = true.
Proof.
  intros Hle. destruct target as [t|].
  - destruct (String.eqb t EmptyString) eqn:E.
    + apply String.eqb_eq in E. subst t.
      change (selected (Some EmptyString) (Some t1) D)
        with (selected None (Some t1) D).
      change (selected (Some EmptyString) (Some t2) D)
        with (selected None (Some t2) D).
      intros H.
      destruct (selected_scan_truthy_date _ _ H) as [s' [Hs' Hne]].
      destruct (selected_scan _ _ H)
        as (g & s & d & Hg & Hgne & Hu & Hs & Hd & Hlt).
      assert (s' = s) by congruence. subst s'.
      destruct (structuralMatch D) eqn:Hm.
      2: { unfold selects, visitFunDecl in H. rewrite Hm in H.
           discriminate H. }
      apply (selected_scan_intro _ D g s d); auto.
      simpl in *. apply Z.ltb_lt in Hlt. apply Z.ltb_lt. lia.
    + apply String.eqb_neq in E.
      now rewrite (selected_targeted_threshold t (Some t1) (Some t2) D E).
  - intros H.
    destruct (selected_scan_truthy_date _ _ H) as [s' [Hs' Hne]].
    destruct (selected_scan _ _ H)
      as (g & s & d & Hg & Hgne & Hu & Hs & Hd & Hlt).
    assert (s' = s) by congruence. subst s'.
    destruct (structuralMatch D) eqn:Hm.
    2: { unfold selects, visitFunDecl in H. rewrite Hm in H.
         discriminate H. }
    apply (selected_scan_intro _ D g s d); auto.
    simpl in *. apply Z.ltb_lt in Hlt. apply Z.ltb_lt. lia.
Qed.

Lemma selected_invalid_threshold (D : Node) :
  selected None None D = false.
Proof.
  destruct (selected None None D) eqn:E; [|reflexivity].
  destruct (selected_scan _ _ E) as (g & s & d & _ & _ & _ & _ & _ & H).
  discriminate H.
Qed.

End SelectionRules.

Section LocatorRules.

Variable uuidValidate : string -> bool.
Variable Date_parse : string -> option Z.
Variable extractDateFromComments : Node -> option string.
Variable getSourceFile : Project -> string -> option SourceFile.
Variable now : Z.

Local Abbreviation find_ks :=
  (findKSDeclaration uuidValidate Date_parse extractDateFromComments
                     getSourceFile now).

(** X3. With a non-empty target, every identifier of the result is the
    target. *)
Theorem targeted_guids_are_target (project : Project)
        (options : ICoreOptions) (t : string) :
  targetId options = Some t ->
  t <> EmptyString ->
  Forall (fun g => g = t) (guids (fst (find_ks project options))).
Proof.
  intros Ht Hne. apply Forall_forall. intros g Hg.
  apply guids_find in Hg. destruct Hg as [D [Hsel HD]].
  rewrite Ht in Hsel.
  pose proof (selected_targeted _ _ _ t _ D Hne Hsel). congruence.
Qed.

(** X4. Without a target, or with an empty one, every identifier of the
    result is a non-empty string that the validator accepts. *)
Theorem scan_guids_are_valid (project : Project) (options : ICoreOptions) :
  falsy (targetId options) ->
  Forall (fun g => uuidValidate g = true /\ g <> EmptyString)
         (guids (fst (find_ks project options))).
Proof.
  intros Hf. apply Forall_forall. intros g Hg.
  apply guids_find in Hg. destruct Hg as [D [Hsel HD]].
  rewrite (selected_falsy_target _ _ _ _ _ D Hf) in Hsel.
  destruct (selected_scan _ _ _ _ _ Hsel)
    as (g' & s & d & Hg' & Hne & Hu & _).
  assert (g' = g) by congruence. subst g'. now split.
Qed.

(** X5. A later threshold never loses a declaration: what is selected
    with a threshold is selected with any threshold after it, in either
    mode. *)
Theorem threshold_monotone (project : Project) (target path : option string)
        (t1 t2 : Z) :
  (t1 <= t2)%Z ->
  incl (ksDecls (fst (find_ks project
                              (mkOptions target path (Some (Some t1))))))
       (ksDecls (fst (find_ks project
                              (mkOptions target path (Some (Some t2)))))).
Proof.
  intros Hle D. rewrite !ksDecls_find. simpl targetId.
  change (thresholdOf now (mkOptions target path (Some (Some t1))))
    with (Some t1).
  change (thresholdOf now (mkOptions target path (Some (Some t2))))
    with (Some t2).
  change (selectFiles getSourceFile project
                      (mkOptions target path (Some (Some t1))))
    with (selectFiles getSourceFile project
                      (mkOptions target path (Some (Some t2)))).
  rewrite !filter_In. intros [Hc Hs]. split; [exact Hc|].
  exact (selected_monotone _ _ _ target t1 t2 D Hle Hs).
Qed.

(** X6. With an invalid date for threshold, the scan selects nothing. *)
Theorem invalid_threshold_selects_nothing (project : Project)
        (options : ICoreOptions) :
  falsy (targetId options) ->
  thresholdDate options = Some None ->
  fst (find_ks project options) = {| ksDecls := []; guids := [] |}.
Proof.
  intros Hf Hth.
  assert (Hnone : forall D,
             selects uuidValidate Date_parse extractDateFromComments
                     (targetId options) (thresholdOf now options) D = false).
  { intros D. rewrite (selected_falsy_target _ _ _ _ _ D Hf).
    unfold thresholdOf. rewrite Hth. apply selected_invalid_threshold. }
  destruct (fst (find_ks project options)) as [decls ids] eqn:E.
  assert (Hd : decls = []).
  { change decls with (ksDecls {| ksDecls := decls; guids := ids |}).
    rewrite <- E, ksDecls_find.
    induction (flat_map funDeclsOf
                        (fst (selectFiles getSourceFile project options)))
      as [|D l IH]; [reflexivity|].
    simpl. now rewrite Hnone. }
  assert (Hi : ids = []).
  { destruct ids as [|g ids]; [reflexivity|].
    assert (Hg : In g (guids (fst (find_ks project options))))
      by (rewrite E; now left).
    apply guids_find in Hg. destruct Hg as [D [Hsel _]].
    rewrite Hnone in Hsel. discriminate Hsel. }
  now rewrite Hd, Hi.
Qed.

(** X7. Without a file path, or with an empty one, the files are
    searched one by one: the result for two projects put together is the
    result for the first followed by the result for the second, and
    nothing is written to the error console. *)
Theorem scan_distributes_over_projects (p1 p2 : Project)
        (options : ICoreOptions) :
  falsy (ksFilePath options) ->
  find_ks (p1 ++ p2) options
  = (appendResult (fst (find_ks p1 options)) (fst (find_ks p2 options)), []).
Proof.
  intros Hf. unfold findKSDeclaration, selectFiles.
  assert (Hsel : forall p,
             match ksFilePath options with
             | Some path =>
                 if JSString.truthy path
                 then match getSourceFile p path with
                      | Some f => ([f], [])
                      | None => ([], [String.append "Invalid KS file path: "
                                                    path])
                      end
                 else (filter keepFile p, [])
             | None => (filter keepFile p, [])
             end = (filter keepFile p, @nil string)).
  { intros p. destruct Hf as [-> | ->]; reflexivity. }
  rewrite !Hsel. simpl fst. f_equal.
  change {| ksDecls := []; guids := [] |} with emptyResult.
  rewrite filter_app, fold_left_app.
  apply fold_appending. apply visitFile_appending.
Qed.

(** X12. A line is written to the error console exactly when the
    options carry a non-empty file path that the provider does not resolve,
    and then it is the only line. *)
Theorem diagnostics_only_for_unresolved_hint (project : Project)
        (options : ICoreOptions) :
  (snd (find_ks project options) <> []
   <-> exists path,
      ksFilePath options = Some path
      /\ path <> EmptyString
      /\ getSourceFile project path = None)
  /\ List.length (snd (find_ks project options)) <= 1.
Proof.
  unfold findKSDeclaration, selectFiles.
  destruct (ksFilePath options) as [path|].
  - destruct (JSString.truthy path) eqn:T.
    + apply truthy_true in T.
      destruct (getSourceFile project path) as [f|] eqn:G; simpl.
      * split; [|lia]. split; [congruence|].
        intros (q & [= <-] & _ & H). congruence.
      * split; [|lia]. split; [|discriminate]. intros _. now exists path.
    + apply truthy_false in T. simpl. split; [|lia].
      split; [congruence|]. intros (q & [= <-] & H & _). congruence.
  - simpl. split; [|lia]. split; [congruence|].
    intros (q & [=] & _).
Qed.

End LocatorRules.

Lemma targeted_guids_are_target_witness :
  Forall (fun g => g = Samples.guidOnes)
         (guids (fst (findKSDeclaration
                        Host.uuidValidate Host.Date_parse
                        Host.extractDateFromComments Host.getSourceFile
                        Host.now [Samples.futureFile]
                        (mkOptions (Some Samples.guidOnes) None None)))).
Proof.
  apply (targeted_guids_are_target
           Host.uuidValidate Host.Date_parse Host.extractDateFromComments
           Host.getSourceFile Host.now [Samples.futureFile]
           (mkOptions (Some Samples.guidOnes) None None) Samples.guidOnes).
  - reflexivity.
  - discriminate.
Defined.

Lemma scan_guids_are_valid_witness :
  Forall (fun g => Host.uuidValidate g = true /\ g <> EmptyString)
         (guids (fst (findKSDeclaration
                        Host.uuidValidate Host.Date_parse
                        Host.extractDateFromComments Host.getSourceFile
                        Host.now Samples.endToEnd
                        (mkOptions None None None)))).
Proof.
  apply (scan_guids_are_valid
           Host.uuidValidate Host.Date_parse Host.extractDateFromComments
           Host.getSourceFile Host.now Samples.endToEnd
           (mkOptions None None None)).
  left. reflexivity.
Defined.

Lemma threshold_monotone_witness :
  incl (ksDecls (fst (findKSDeclaration
                        Host.uuidValidate Host.Date_parse
                        Host.extractDateFromComments Host.getSourceFile
                        Host.now Samples.endToEnd
                        (mkOptions None None
                                   (Some (Some 1704067200000%Z))))))
       (ksDecls (fst (findKSDeclaration
                        Host.uuidValidate Host.Date_parse
                        Host.extractDateFromComments Host.getSourceFile
                        Host.now Samples.endToEnd
                        (mkOptions None None
                                   (Some (Some 1735689600000%Z)))))).
Proof.
  apply (threshold_monotone
           Host.uuidValidate Host.Date_parse Host.extractDateFromComments
           Host.getSourceFile Host.now Samples.endToEnd None None
           1704067200000%Z 1735689600000%Z).
  lia.
Defined.

Lemma invalid_threshold_selects_nothing_witness :
  fst (findKSDeclaration
         Host.uuidValidate Host.Date_parse Host.extractDateFromComments
         Host.getSourceFile Host.now Samples.endToEnd
         (mkOptions None None (Some None)))
  = {| ksDecls := []; guids := [] |}.
Proof.
  apply (invalid_threshold_selects_nothing
           Host.uuidValidate Host.Date_parse Host.extractDateFromComments
           Host.getSourceFile Host.now Samples.endToEnd
           (mkOptions None None (Some None))).
  - left. reflexivity.
  - reflexivity.
Defined.

Lemma scan_distributes_over_projects_witness :
  findKSDeclaration
    Host.uuidValidate Host.Date_parse Host.extractDateFromComments
    Host.getSourceFile Host.now
    ([Samples.flagsFile] ++ [Samples.futureFile])
    (mkOptions None (Some EmptyString) None)
  = (appendResult
       (fst (findKSDeclaration
               Host.uuidValidate Host.Date_parse Host.extractDateFromComments
               Host.getSourceFile Host.now [Samples.flagsFile]
               (mkOptions None (Some EmptyString) None)))
       (fst (findKSDeclaration
               Host.uuidValidate Host.Date_parse Host.extractDateFromComments
               Host.getSourceFile Host.now [Samples.futureFile]
               (mkOptions None (Some EmptyString) None))),
     []).
Proof.
  apply (scan_distributes_over_projects
           Host.uuidValidate Host.Date_parse Host.extractDateFromComments
           Host.getSourceFile Host.now
           [Samples.flagsFile] [Samples.futureFile]
           (mkOptions None (Some EmptyString) None)).
  right. reflexivity.
Defined.

(* ----------------------------------------------------------------- *)
(** ** The files kept by the scan *)

Lemma prefix_append (n s : string) :
  String.prefix n s = true <-> exists after, s = String.append n after.
Proof.
  revert s. induction n as [|a n IH]; intros s.
  - split; [intros _; now exists s | intros _; now destruct s].
  - destruct s as [|b s]; simpl.
    + split; [discriminate | intros [after H]; discriminate H].
    + destruct (ascii_dec a b) as [<- | Hne].
      * rewrite IH. split; intros [after H]; exists after; congruence.
      * split; [discriminate|]. intros [after [= H _]]. now elim Hne.
Qed.

Lemma includes_unfold (s needle : string) :
  JSString.includes s needle
  = if String.prefix needle s then true
    else match s with
         | EmptyString => false
         | String _ rest => JSString.includes rest needle
         end.
Proof. destruct s; reflexivity. Qed.

(** [includes] is the search for a substring. *)
Lemma includes_Contains (s needle : string) :
  JSString.includes s needle = true <-> Contains s needle.
Proof.
  split.
  - induction s as [|c s IH]; rewrite includes_unfold;
      destruct (String.prefix needle _) eqn:P.
    + intros _. apply prefix_append in P. destruct P as [after H].
      now exists EmptyString, after.
    + discriminate.
    + intros _. apply prefix_append in P. destruct P as [after H].
      now exists EmptyString, after.
    + intros H. destruct (IH H) as [before [after E]].
      exists (String c before), after. simpl. now rewrite E.
  - intros [before [after E]]. revert s E.
    induction before as [|c before IH]; intros s E; rewrite includes_unfold.
    + assert (P : String.prefix needle s = true)
        by (apply prefix_append; now exists after).
      now rewrite P.
    + destruct (String.prefix needle s); [reflexivity|].
      subst s. simpl. now apply IH.
Qed.

(** X8. The scan keeps a file exactly when one of its import specifiers
    imports a name that has [killswitch] in it, the ASCII letters taken
    without their case, and the text of the file has [.isActivated] in
    it. *)
Theorem kept_files_import_and_mention (f : SourceFile) :
  keepFile f = true
  <-> (exists specifier name,
          In specifier
             (Node.getDescendantsOfKind SyntaxKind.ImportSpecifier (root f))
          /\ Node.getImportName specifier = Some name
          /\ Contains (JSString.toLower name) "killswitch")
      /\ Contains (Node.getText (root f)) ".isActivated".
Proof.
  unfold keepFile, hasKsImported. rewrite andb_true_iff.
  change (String.append "." KS_ACTIVATED_METHOD) with ".isActivated".
  rewrite includes_Contains, existsb_exists. split.
  - intros [[o [Ho Ht]] Hc]. split; [|exact Hc].
    apply in_map_iff in Ho. destruct Ho as [specifier [E Hs]].
    destruct o as [name|]; [|discriminate].
    exists specifier, name. split; [exact Hs|]. split; [exact E|].
    now apply includes_Contains.
  - intros [(specifier & name & Hs & E & Hc) Ht]. split; [|exact Ht].
    exists (Some name). split.
    + rewrite <- E. now apply in_map.
    + now apply includes_Contains.
Qed.

(** X9. Without a file path, or with an empty one, every declaration of
    the result is a top-level function declaration of a file of the project
    that the scan keeps. *)
Theorem scanned_declarations_come_from_kept_files
        (uuidValidate : string -> bool) (Date_parse : string -> option Z)
        (extractDateFromComments : Node -> option string)
        (getSourceFile : Project -> string -> option SourceFile) (now : Z)
        (project : Project) (options : ICoreOptions) :
  falsy (ksFilePath options) ->
  Forall (fun D => exists f,
              In f project /\ keepFile f = true /\ In D (funDeclsOf f))
         (ksDecls (fst (findKSDeclaration
                          uuidValidate Date_parse extractDateFromComments
                          getSourceFile now project options))).
Proof.
  intros Hf. rewrite ksDecls_find. apply Forall_forall. intros D HD.
  apply filter_In in HD. destruct HD as [HD _].
  apply in_flat_map in HD. destruct HD as [f [Hfile HD]].
  assert (Hsel : fst (selectFiles getSourceFile project options)
                 = filter keepFile project)
    by (unfold selectFiles; destruct Hf as [-> | ->]; reflexivity).
  rewrite Hsel in Hfile. apply filter_In in Hfile.
  destruct Hfile as [Hin Hkeep]. now exists f.
Qed.

Lemma scanned_declarations_come_from_kept_files_witness :
  Forall (fun D => exists f,
              In f Samples.endToEnd /\ keepFile f = true
              /\ In D (funDeclsOf f))
         (ksDecls (fst (findKSDeclaration
                          Host.uuidValidate Host.Date_parse
                          Host.extractDateFromComments Host.getSourceFile
                          Host.now Samples.endToEnd
                          (mkOptions None None None)))).
Proof.
  apply (scanned_declarations_come_from_kept_files
           Host.uuidValidate Host.Date_parse Host.extractDateFromComments
           Host.getSourceFile Host.now Samples.endToEnd
           (mkOptions None None None)).
  left. reflexivity.
Defined.

(* ----------------------------------------------------------------- *)
(** ** The identifier *)

Lemma length_append (s t : string) :
  String.length (String.append s t) = String.length s + String.length t.
Proof. induction s as [|c s IH]; simpl; [reflexivity | now rewrite IH]. Qed.

Lemma substring_0_append (s t : string) :
  String.substring 0 (String.length s) (String.append s t) = s.
Proof. induction s as [|c s IH]; simpl; [now destruct t | now rewrite IH]. Qed.

(** From two characters on, the identifier is the text without its first
    and last character. *)
Lemma substring_inner (a : string) :
  2 <= String.length a ->
  JSString.substring a 1 (Z.of_nat (String.length a) - 1)
  = String.substring 1 (String.length a - 2) a.
Proof.
  intros H. unfold JSString.substring, JSString.clamp. f_equal; lia.
Qed.

(** X10. When the text of the first argument is a string between two
    delimiters of one character each, whatever they are, the identifier is
    the string between them. *)
Theorem extractGuid_strips_delimiters (D : Node) (opening closing : ascii)
        (s : string) :
  argumentText D 0
  = Some (String opening (String.append s (String closing EmptyString))) ->
  extractGuid D = Some s.
Proof.
  intros H. unfold extractGuid. rewrite H. cbn [option_map]. f_equal.
  rewrite substring_inner.
  - cbn [String.length]. rewrite length_append. cbn [String.length].
    replace (S (String.length s + 1) - 2) with (String.length s) by lia.
    cbn [String.substring]. apply substring_0_append.
  - cbn [String.length]. rewrite length_append. cbn [String.length]. lia.
Qed.

Lemma extractGuid_strips_delimiters_witness :
  extractGuid Samples.checkX = Some Samples.guidX.
Proof.
  apply (extractGuid_strips_delimiters
           Samples.checkX (ascii_of_nat 34) (ascii_of_nat 34) Samples.guidX).
  reflexivity.
Defined.

(** X11. The short texts: a first argument of one character is taken
    whole for identifier, since the bounds of the substring come out in the
    wrong order and are swapped; an argument of two characters, or an empty
    one, gives the empty identifier. *)
Theorem extractGuid_short_argument (D : Node) (a : string) :
  argumentText D 0 = Some a ->
  (String.length a = 1 -> extractGuid D = Some a)
  /\ (String.length a = 0 \/ String.length a = 2 ->
      extractGuid D = Some EmptyString).
Proof.
  intros H. unfold extractGuid. rewrite H. simpl option_map. split.
  - intros L. destruct a as [|c [|c' a]]; try discriminate L. reflexivity.
  - intros [L | L]; destruct a as [|c [|c' [|c'' a]]]; try discriminate L;
      reflexivity.
Qed.

Lemma extractGuid_short_argument_witness :
  (String.length "x" = 1 -> extractGuid Samples.checkS = Some "x")
  /\ (String.length "x" = 0 \/ String.length "x" = 2 ->
      extractGuid Samples.checkS = Some EmptyString).
Proof.
  apply (extractGuid_short_argument Samples.checkS "x"). reflexivity.
Defined.

(* ================================================================= *)
(** * Further properties of the replacement engine *)

Lemma setAdd_In {A : Type} (eqb : A -> A -> bool) (x y : A) (s : list A) :
  In y (setAdd eqb x s) -> y = x \/ In y s.
Proof.
  unfold setAdd. destruct (existsb (eqb x) s); [now right|].
  rewrite in_app_iff. simpl. intuition.
Qed.

Lemma setAdd_length {A : Type} (eqb : A -> A -> bool) (x : A) (s : list A) :
  List.length (setAdd eqb x s) <= S (List.length s).
Proof.
  unfold setAdd. destruct (existsb (eqb x) s); [lia|].
  rewrite length_app. simpl. lia.
Qed.

Lemma setAdd_NoDup {A : Type} (eqb : A -> A -> bool) (x : A) (s : list A) :
  (forall a b, a = b -> eqb a b = true) ->
  NoDup s -> NoDup (setAdd eqb x s).
Proof.
  intros Hrefl Hs. unfold setAdd.
  destruct (existsb (eqb x) s) eqn:E; [exact Hs|].
  apply NoDup_app; [exact Hs | repeat constructor; intros [] |].
  intros a Ha [E' | []]. subst a.
  assert (existsb (eqb x) s = true)
    by (apply existsb_exists; exists x; split; [exact Ha | now apply Hrefl]).
  congruence.
Qed.

Lemma map_filePath_replaceNode (i : NodeId) (new : Node) (p : Project) :
  map filePath (Project.replaceNode i new p) = map filePath p.
Proof.
  unfold Project.replaceNode. rewrite map_map. reflexivity.
Qed.

Lemma find_all_false {A : Type} (q : A -> bool) (l : list A) :
  (forall x, In x l -> q x = false) -> find q l = None.
Proof.
  induction l as [|a l IH]; intros H; [reflexivity|].
  simpl. rewrite (H a (or_introl eq_refl)).
  apply IH. intros x Hx. apply H. now right.
Qed.

(** A tree without the node is left as it is. *)
Lemma replaceNode_absent (i : NodeId) (new n : Node) :
  Node.findNode i n = None -> Node.replaceNode i new n = n.
Proof.
  unfold Node.findNode.
  induction n as [k t | j f k cs IH] using Node_induction; intros H.
  - reflexivity.
  - rewrite nodesOf_Syntax in H. simpl in H.
    destruct (Nat.eqb j i) eqn:E; [discriminate H|].
    simpl. rewrite E. f_equal.
    rewrite <- (map_id cs) at 2. apply map_ext_in. intros c Hc.
    rewrite Forall_forall in IH. apply (IH c Hc).
    apply find_all_false. intros x Hx.
    apply (find_none _ _ H). apply in_flat_map. now exists c.
Qed.

Lemma list_sum_ones {X : Type} (xs : list X) :
  list_sum (map (fun _ => 1) xs) = List.length xs.
Proof. induction xs as [|x xs IH]; simpl; [reflexivity | now rewrite IH]. Qed.

Lemma list_sum_lengths {X : Type} (xss : list (list X)) :
  list_sum (map (@List.length X) xss) = List.length (List.concat xss).
Proof.
  induction xss as [|xs xss IH]; simpl; [reflexivity|].
  now rewrite length_app, IH.
Qed.

(** A property that holds after [k] references and that a step carries
    to [k + 1] holds at the end of the loop for the number of
    references. *)
Lemma fold_counted {X : Type} (f : ReplaceState -> X -> Result ReplaceState)
      (weight : X -> nat) (R : nat -> ReplaceState -> Prop) :
  (forall k st x st', R k st -> f st x = Ok st' -> R (weight x + k) st') ->
  forall xs k st st',
    R k st ->
    fold_left (fun acc x => st <- acc ;; f st x) xs (Ok st) = Ok st' ->
    R (list_sum (map weight xs) + k) st'.
Proof.
  intros Hstep xs. induction xs as [|x xs IH]; intros k st st' HR H.
  - simpl in *. injection H as <-. exact HR.
  - simpl in H. destruct (f st x) as [st1|m] eqn:E.
    + specialize (IH (weight x + k) st1 st' (Hstep k st x st1 HR E) H).
      simpl.
      replace (weight x + list_sum (map weight xs) + k)
        with (list_sum (map weight xs) + (weight x + k)) by lia.
      exact IH.
    + rewrite fold_Throw in H. discriminate H.
Qed.

(** What a replacement that succeeds does to the state. *)
Lemma replacement_cases (st : ReplaceState) (refFile : SourceFile)
      (target : Node) (text : string) (st' : ReplaceState) :
  (replaced <- Project.replaceWithText (project st) target text ;;
   Ok (afterReplacement st refFile replaced)) = Ok st' ->
  project st'
  = Project.replaceNode
      (Project.idOf target)
      (Project.parseText (Project.freshId (project st))
                         (Node.getField target) text)
      (project st)
  /\ ((workList st' = workList st /\ refFiles st' = refFiles st)
      \/ exists x,
         workList st' = setAdd Nat.eqb x (workList st)
         /\ refFiles st'
            = setAdd String.eqb (filePath refFile) (refFiles st)).
Proof.
  destruct (Project.replaceWithText (project st) target text) as [r|m] eqn:R;
    [|discriminate].
  apply replaceWithText_inv in R. destruct R as [_ ->].
  simpl bind. intros [= <-]. unfold afterReplacement. simpl fst. simpl snd.
  destruct (Project.getParent _ (Project.freshId (project st)));
    simpl; (split; [reflexivity|]);
    [right; eexists; split; reflexivity | left; split; reflexivity].
Qed.

Section EngineExtras.

Variable Ref : Type.
Variable getNode : Project -> Ref -> NodeId.

(** What a step of the loop can do to the state. *)
Lemma processRef_cases (st : ReplaceState) (ref : Ref)
      (st' : ReplaceState) :
  processRef getNode st ref = Ok st' ->
  st' = st
  \/ exists refFile refNode target text,
      Project.lookup (project st) (getNode (project st) ref)
      = Some (refFile, refNode)
      /\ project st'
         = Project.replaceNode
             (Project.idOf target)
             (Project.parseText (Project.freshId (project st))
                                (Node.getField target) text)
             (project st)
      /\ ((workList st' = workList st /\ refFiles st' = refFiles st)
          \/ exists x,
             workList st' = setAdd Nat.eqb x (workList st)
             /\ refFiles st'
                = setAdd String.eqb (filePath refFile) (refFiles st)).
Proof.
  intros H.
  destruct (Project.lookup (project st) (getNode (project st) ref))
    as [[refFile refNode]|] eqn:L;
    [|unfold processRef in H; rewrite L in H; discriminate H].
  destruct (Project.getParent (project st) (getNode (project st) ref))
    as [parent|] eqn:P;
    [|unfold processRef in H; rewrite L, P in H; injection H as <-; now left].
  destruct (Node.isKind SyntaxKind.CallExpression parent) eqn:K;
    [|unfold processRef in H; rewrite L, P, K in H;
      injection H as <-; now left].
  right. apply isKind_getKind in K.
  rewrite (processRef_call Ref getNode st ref refFile refNode parent L P K)
    in H.
  exists refFile, refNode.
  destruct (negationOf (project st) parent) as [negation|].
  - exists negation, "true". split; [reflexivity|].
    exact (replacement_cases st refFile negation "true" st' H).
  - exists parent, "false". split; [reflexivity|].
    exact (replacement_cases st refFile parent "false" st' H).
Qed.

Variable findReferences : Project -> Node -> list (list Ref).

Lemma replace_counted (R : nat -> ReplaceState -> Prop) (p : Project)
      (ksDecl : Node) (st' : ReplaceState) :
  (forall k st ref st',
      R k st -> processRef getNode st ref = Ok st' -> R (S k) st') ->
  R 0 {| project := p; workList := []; refFiles := [] |} ->
  replaceFunCallWithFalse getNode findReferences p ksDecl = Ok st' ->
  R (List.length (List.concat (findReferences p ksDecl))) st'.
Proof.
  intros Hstep H0 Hrun. unfold replaceFunCallWithFalse in Hrun.
  assert (Hrefs : forall k st refs st1,
             R k st -> processRefs getNode refs st = Ok st1 ->
             R (List.length refs + k) st1).
  { intros k st refs st1 HR H. rewrite <- list_sum_ones.
    exact (fold_counted (processRef getNode) (fun _ => 1) R Hstep
                        refs k st st1 HR H). }
  pose proof (fold_counted (fun st refs => processRefs getNode refs st)
                           (@List.length Ref) R Hrefs
                           (findReferences p ksDecl) 0 _ st' H0 Hrun) as H.
  now rewrite list_sum_lengths, Nat.add_0_r in H.
Qed.

Lemma replace_invariant (Inv : ReplaceState -> Prop) (p : Project)
      (ksDecl : Node) (st' : ReplaceState) :
  (forall st ref st',
      Inv st -> processRef getNode st ref = Ok st' -> Inv st') ->
  Inv {| project := p; workList := []; refFiles := [] |} ->
  replaceFunCallWithFalse getNode findReferences p ksDecl = Ok st' ->
  Inv st'.
Proof.
  intros Hstep H0 Hrun.
  exact (replace_counted (fun _ => Inv) p ksDecl st'
                         (fun _ => Hstep) H0 Hrun).
Qed.

(** X13. The set of modified nodes and the list of files hold no entry
    twice. *)
Theorem sets_have_no_duplicates (p : Project) (ksDecl : Node)
        (st : ReplaceState) :
  replaceFunCallWithFalse getNode findReferences p ksDecl = Ok st ->
  NoDup (workList st) /\ NoDup (refFiles st).
Proof.
  apply (replace_invariant
           (fun st => NoDup (workList st) /\ NoDup (refFiles st))).
  - intros st0 ref st1 [Hw Hf] H.
    destruct (processRef_cases _ _ _ H)
      as [-> | (refFile & refNode & target & text & _ & _
                & [[-> ->] | [x [-> ->]]])];
      try (split; assumption).
    split; apply setAdd_NoDup; try assumption.
    + intros a b E. subst b. apply Nat.eqb_refl.
    + intros a b E. subst b. apply String.eqb_refl.
  - split; constructor.
Qed.

(** X14. The replacement neither adds nor drops a file, and no file
    changes its path or its place in the project. *)
Theorem files_are_kept (p : Project) (ksDecl : Node) (st : ReplaceState) :
  replaceFunCallWithFalse getNode findReferences p ksDecl = Ok st ->
  map filePath (project st) = map filePath p.
Proof.
  apply (replace_invariant
           (fun st => map filePath (project st) = map filePath p)).
  - intros st0 ref st1 Hp H.
    destruct (processRef_cases _ _ _ H)
      as [-> | (refFile & refNode & target & text & _ & -> & _)];
      [exact Hp|].
    now rewrite map_filePath_replaceNode.
  - reflexivity.
Qed.

(** X15. Every file of the returned list is a file of the project. *)
Theorem refFiles_are_project_files (p : Project) (ksDecl : Node)
        (st : ReplaceState) :
  replaceFunCallWithFalse getNode findReferences p ksDecl = Ok st ->
  incl (refFiles st) (map filePath p).
Proof.
  intros Hrun.
  enough (H : map filePath (project st) = map filePath p
              /\ incl (refFiles st) (map filePath p)) by apply H.
  revert Hrun.
  apply (replace_invariant
           (fun st => map filePath (project st) = map filePath p
                      /\ incl (refFiles st) (map filePath p))).
  - intros st0 ref st1 [Hp Hf] H.
    destruct (processRef_cases _ _ _ H)
      as [-> | (refFile & refNode & target & text & Hlive & Hproj
                & [[Hw Hr] | [x [Hw Hr]]])].
    + now split.
    + rewrite Hproj, Hr, map_filePath_replaceNode. now split.
    + rewrite Hproj, Hr, map_filePath_replaceNode. split; [exact Hp|].
      intros path Hpath. apply setAdd_In in Hpath.
      destruct Hpath as [-> | Hpath]; [|now apply Hf].
      rewrite <- Hp. apply in_map. now apply (lookup_In _ _ _ _ Hlive).
  - split; [reflexivity | intros path []].
Qed.

(** X16. Each reference adds at most one node and at most one file:
    neither list is longer than the number of references. *)
Theorem at_most_one_entry_per_reference (p : Project) (ksDecl : Node)
        (st : ReplaceState) :
  replaceFunCallWithFalse getNode findReferences p ksDecl = Ok st ->
  List.length (workList st) <= List.length (List.concat (findReferences p ksDecl))
  /\ List.length (refFiles st)
     <= List.length (List.concat (findReferences p ksDecl)).
Proof.
  apply (replace_counted
           (fun k st => List.length (workList st) <= k
                        /\ List.length (refFiles st) <= k)).
  - intros k st0 ref st1 [Hw Hf] H.
    destruct (processRef_cases _ _ _ H)
      as [-> | (refFile & refNode & target & text & _ & _
                & [[-> ->] | [x [-> ->]]])];
      try (split; lia).
    split;
      (eapply Nat.le_trans; [apply setAdd_length|]; apply le_n_S; assumption).
  - simpl. split; lia.
Qed.

(* ----------------------------------------------------------------- *)
(** ** The negated call and the files around *)

(** X17. A reference under a negated call, when [true] does not run into
    the text next to the negation: the parent of the negation goes to the
    set of modified nodes and the file of the reference to the list of
    files. *)
Theorem negated_call_records_parent (st : ReplaceState) (ref : Ref)
        (refFile : SourceFile) (refNode parent negation outer : Node) :
  Project.lookup (project st) (getNode (project st) ref)
  = Some (refFile, refNode) ->
  Project.getParent (project st) (getNode (project st) ref) = Some parent ->
  Node.getKind parent = SyntaxKind.CallExpression ->
  Project.getParent (project st) (Project.idOf parent) = Some negation ->
  isNegation negation ->
  Project.getParent (project st) (Project.idOf negation) = Some outer ->
  (forall f, In f (project st) ->
             Node.hasId (Project.idOf negation) (root f) = false) ->
  Project.fusion (project st) negation "true" = Some false ->
  exists st',
    processRef getNode st ref = Ok st'
    /\ workList st' = setAdd Nat.eqb (Project.idOf outer) (workList st)
    /\ refFiles st' = setAdd String.eqb (filePath refFile) (refFiles st).
Proof.
  intros Hlive Hparent Hkind Hneg Hn Houter Hroot Hfusion.
  rewrite (processRef_negated Ref getNode st ref refFile refNode parent
                              negation Hlive Hparent Hkind Hneg Hn Hfusion).
  rewrite (afterReplacement_recorded
             st refFile negation outer "true" Houter
             (getParent_live _ _ _ Hneg) Hroot).
  eexists. split; [reflexivity|]. split; reflexivity.
Qed.

(** X18. A step of the loop leaves as it is every file that holds
    neither the call the reference is under nor the parent of that call. *)
Theorem other_files_untouched (st st' : ReplaceState) (ref : Ref)
        (parent : Node) (k : nat) (f : SourceFile) :
  processRef getNode st ref = Ok st' ->
  Project.getParent (project st) (getNode (project st) ref) = Some parent ->
  nth_error (project st) k = Some f ->
  Node.findNode (Project.idOf parent) (root f) = None ->
  (forall above,
      Project.getParent (project st) (Project.idOf parent) = Some above ->
      Node.findNode (Project.idOf above) (root f) = None) ->
  nth_error (project st') k = Some f.
Proof.
  intros Hrun Hparent Hk Hp Habove.
  assert (Hfile : forall target text,
             Node.findNode (Project.idOf target) (root f) = None ->
             nth_error (fst (withLiteral (project st) target text)) k
             = Some f).
  { intros target text Habsent. unfold withLiteral. simpl fst.
    unfold Project.replaceNode. rewrite nth_error_map, Hk. simpl.
    unfold Project.replacedFile. rewrite (replaceNode_absent _ _ _ Habsent).
    now destruct f. }
  destruct (Project.lookup (project st) (getNode (project st) ref))
    as [[refFile refNode]|] eqn:L;
    [|unfold processRef in Hrun; rewrite L in Hrun; discriminate Hrun].
  destruct (Node.isKind SyntaxKind.CallExpression parent) eqn:K;
    [|unfold processRef in Hrun; rewrite L, Hparent, K in Hrun;
      injection Hrun as <-; exact Hk].
  apply isKind_getKind in K.
  rewrite (processRef_call Ref getNode st ref refFile refNode parent
                           L Hparent K) in Hrun.
  destruct (negationOf (project st) parent) as [negation|] eqn:E.
  - apply negationOf_Some in E. destruct E as [Hneg _].
    destruct (Project.replaceWithText (project st) negation "true")
      as [r|m] eqn:R; [|discriminate Hrun].
    apply replaceWithText_inv in R. destruct R as [_ ->].
    simpl bind in Hrun. injection Hrun as <-.
    rewrite afterReplacement_project.
    exact (Hfile negation "true" (Habove negation Hneg)).
  - destruct (Project.replaceWithText (project st) parent "false")
      as [r|m] eqn:R; [|discriminate Hrun].
    apply replaceWithText_inv in R. destruct R as [_ ->].
    simpl bind in Hrun. injection Hrun as <-.
    rewrite afterReplacement_project.
    exact (Hfile parent "false" Hp).
Qed.

End EngineExtras.

Lemma first_run_state :
  replaceFunCallWithFalse Host.getNode Host.findReferences
                          Samples.endToEnd Samples.checkX
  = Ok Samples.firstRunState.
Proof. vm_compute. reflexivity. Qed.

Lemma sets_have_no_duplicates_witness :
  NoDup (workList Samples.firstRunState)
  /\ NoDup (refFiles Samples.firstRunState).
Proof.
  apply (sets_have_no_duplicates NodeId Host.getNode Host.findReferences
                                 Samples.endToEnd Samples.checkX).
  vm_compute. reflexivity.
Defined.

Lemma files_are_kept_witness :
  map filePath (project Samples.firstRunState)
  = map filePath Samples.endToEnd.
Proof.
  apply (files_are_kept NodeId Host.getNode Host.findReferences
                        Samples.endToEnd Samples.checkX).
  vm_compute. reflexivity.
Defined.

Lemma refFiles_are_project_files_witness :
  incl (refFiles Samples.firstRunState) (map filePath Samples.endToEnd).
Proof.
  apply (refFiles_are_project_files NodeId Host.getNode Host.findReferences
                                    Samples.endToEnd Samples.checkX).
  vm_compute. reflexivity.
Defined.

Lemma at_most_one_entry_per_reference_witness :
  List.length (workList Samples.firstRunState)
  <= List.length
       (List.concat (Host.findReferences Samples.endToEnd Samples.checkX))
  /\ List.length (refFiles Samples.firstRunState)
     <= List.length
          (List.concat (Host.findReferences Samples.endToEnd Samples.checkX)).
Proof.
  apply (at_most_one_entry_per_reference
           NodeId Host.getNode Host.findReferences
           Samples.endToEnd Samples.checkX).
  vm_compute. reflexivity.
Defined.

Lemma negated_call_records_parent_witness :
  exists st',
    processRef Host.getNode
               (initialState (Samples.useSite Samples.negatedCall)) 44
    = Ok st'
    /\ workList st' = [41]
    /\ refFiles st' = [Samples.appPath].
Proof.
  edestruct (negated_call_records_parent
               NodeId Host.getNode
               (initialState (Samples.useSite Samples.negatedCall)) 44)
    as [st' [Hrun [Hw Hf]]].
  - reflexivity.
  - reflexivity.
  - reflexivity.
  - reflexivity.
  - split; reflexivity.
  - reflexivity.
  - intros f [<- | [<- | []]]; reflexivity.
  - reflexivity.
  - exists st'. split; [exact Hrun|]. rewrite Hw, Hf. split; reflexivity.
Defined.

Lemma other_files_untouched_witness :
  exists st',
    processRef Host.getNode
               (initialState (Samples.useSite Samples.negatedCall)) 44
    = Ok st'
    /\ nth_error (project st') 0 = Some Samples.wrapperFile.
Proof.
  destruct (processRef
              Host.getNode
              (initialState (Samples.useSite Samples.negatedCall)) 44)
    as [st'|m] eqn:Hrun; [|vm_compute in Hrun; discriminate Hrun].
  exists st'. split; [reflexivity|].
  eapply (other_files_untouched
            NodeId Host.getNode
            (initialState (Samples.useSite Samples.negatedCall)) st' 44).
  - exact Hrun.
  - reflexivity.
  - reflexivity.
  - reflexivity.
  - intros above H. vm_compute in H. injection H as <-. reflexivity.
Defined.

(* ================================================================= *)
(** * Properties of [isAncestorOf] *)

Lemma firstSome_map_Some {A B : Type} (g : A -> option B) (l : list A)
      (y : B) :
  firstSome (map g l) = Some y -> exists c, In c l /\ g c = Some y.
Proof.
  induction l as [|a l IH]; simpl; [discriminate|].
  destruct (g a) as [b|] eqn:E.
  - intros [= <-]. exists a. split; [now left | exact E].
  - intros H. destruct (IH H) as [c [Hc Hg]]. exists c. split; [now right|].
    exact Hg.
Qed.

Lemma firstSome_map_None {A B : Type} (g : A -> option B) (l : list A) :
  firstSome (map g l) = None -> forall c, In c l -> g c = None.
Proof.
  induction l as [|a l IH]; simpl; [intros _ c []|].
  destruct (g a) as [b|] eqn:E; [discriminate|].
  intros H c [<- | Hc]; [exact E | now apply IH].
Qed.

Lemma find_Some_In {A : Type} (q : A -> bool) (l : list A) (x : A) :
  In x l -> q x = true -> exists y, find q l = Some y.
Proof.
  intros Hx Hq. destruct (find q l) as [y|] eqn:E; [now exists y|].
  pose proof (find_none _ _ E x Hx). congruence.
Qed.

Lemma nodesOf_self (n : Node) :
  Node.isSyntax n = true -> In n (Node.nodesOf n).
Proof.
  destruct n; [discriminate|]. intros _. rewrite nodesOf_Syntax. now left.
Qed.

Lemma nodesOf_child (i : NodeId) (f : Field) (k : SyntaxKind.t)
      (cs : list Node) (c m : Node) :
  In c cs -> In m (Node.nodesOf c) -> In m (Node.nodesOf (Syntax i f k cs)).
Proof.
  intros Hc Hm. rewrite nodesOf_Syntax. right. apply in_flat_map.
  now exists c.
Qed.

(** The ancestors of a node: none of them is the node, each of them is a
    node of the tree and holds the node, and the last one is the root. *)
Lemma ancestorsIn_spec (i : NodeId) (n : Node) (up : list Node) :
  ancestorsIn i n = Some up ->
  Forall (fun a => Node.hasId i a = false
                   /\ In a (Node.nodesOf n)
                   /\ exists m, Node.findNode i a = Some m) up
  /\ (exists m, Node.findNode i n = Some m)
  /\ (Node.hasId i n = false -> exists up', up = up' ++ [n]).
Proof.
  revert up. induction n as [k t | j f k cs IH] using Node_induction;
    intros up H.
  - discriminate H.
  - simpl in H. destruct (Nat.eqb j i) eqn:E.
    + injection H as <-. split; [constructor|]. split.
      * exists (Syntax j f k cs). unfold Node.findNode.
        rewrite nodesOf_Syntax. simpl. now rewrite E.
      * simpl. congruence.
    + destruct (firstSome (map (ancestorsIn i) cs)) as [up0|] eqn:F;
        [|discriminate H].
      injection H as <-.
      destruct (firstSome_map_Some _ _ _ F) as [c [Hc Hup]].
      rewrite Forall_forall in IH.
      destruct (IH c Hc up0 Hup) as [Hall [[m Hm] _]].
      assert (Hfound : exists m', Node.findNode i (Syntax j f k cs) = Some m').
      { unfold Node.findNode in *.
        apply find_some in Hm. destruct Hm as [Hin Hid].
        apply (find_Some_In _ _ m); [|exact Hid].
        now apply (nodesOf_child j f k cs c). }
      split; [|split; [exact Hfound | intros _; now exists up0]].
      apply Forall_app. split.
      * apply Forall_forall. intros a Ha.
        rewrite Forall_forall in Hall.
        destruct (Hall a Ha) as [H1 [H2 H3]].
        split; [exact H1|]. split; [|exact H3].
        now apply (nodesOf_child j f k cs c).
      * constructor; [|constructor].
        split; [exact E|]. split; [|exact Hfound].
        rewrite nodesOf_Syntax. now left.
Qed.

(** A node of the tree has ancestors. *)
Lemma ancestorsIn_found (i : NodeId) (n m : Node) :
  Node.findNode i n = Some m -> exists up, ancestorsIn i n = Some up.
Proof.
  revert m. induction n as [k t | j f k cs IH] using Node_induction;
    intros m H.
  - discriminate H.
  - simpl. destruct (Nat.eqb j i) eqn:E; [now exists []|].
    destruct (firstSome (map (ancestorsIn i) cs)) as [up0|] eqn:F;
      [now exists (up0 ++ [Syntax j f k cs])|].
    exfalso. unfold Node.findNode in H. rewrite nodesOf_Syntax in H.
    simpl in H. rewrite E in H.
    apply find_some in H. destruct H as [Hin Hid].
    apply in_flat_map in Hin. destruct Hin as [c [Hc Hm]].
    rewrite Forall_forall in IH.
    destruct (find_Some_In (Node.hasId i) _ m Hm Hid) as [y Hy].
    destruct (IH c Hc y Hy) as [up Hup].
    pose proof (firstSome_map_None _ _ F c Hc). congruence.
Qed.

(** X19. No node is an ancestor of itself. *)
Theorem isAncestorOf_irreflexive (p : Project) (node : NodeId) :
  isAncestorOf p node node <> Ok true.
Proof.
  unfold isAncestorOf, getAncestors, optBind.
  destruct (Project.lookup p node) as [[f n]|]; [|discriminate].
  simpl. destruct (ancestorsIn node (root f)) as [up|] eqn:E; [|discriminate].
  destruct (ancestorsIn_spec _ _ _ E) as [Hall _].
  intros [= H]. apply existsb_exists in H. destruct H as [a [Ha Hid]].
  rewrite Forall_forall in Hall. destruct (Hall a Ha) as [Hno _]. congruence.
Qed.

(** X20. The root of a file is an ancestor of every other node of the
    file. *)
Theorem root_is_ancestor (p : Project) (nodeB : NodeId) (f : SourceFile)
        (n : Node) :
  Project.lookup p nodeB = Some (f, n) ->
  Node.hasId nodeB (root f) = false ->
  isAncestorOf p (Project.idOf (root f)) nodeB = Ok true.
Proof.
  intros Hlive Hroot. unfold isAncestorOf, getAncestors, optBind.
  rewrite Hlive. simpl.
  destruct (lookup_In _ _ _ _ Hlive) as [_ Hfound].
  destruct (ancestorsIn_found _ _ _ Hfound) as [up Hup]. rewrite Hup.
  destruct (ancestorsIn_spec _ _ _ Hup) as [_ [_ Hlast]].
  destruct (Hlast Hroot) as [up' ->]. f_equal.
  apply existsb_exists. exists (root f). split.
  - apply in_app_iff. right. now left.
  - apply hasId_idOf. unfold Node.findNode in Hfound.
    apply find_some in Hfound. destruct Hfound as [Hin _].
    destruct (root f); [destruct Hin | reflexivity].
Qed.

Lemma root_is_ancestor_witness :
  isAncestorOf (Samples.useSite Samples.negatedCall) 40 44 = Ok true.
Proof.
  eapply (root_is_ancestor (Samples.useSite Samples.negatedCall) 44
                           (Samples.appFile Samples.negatedCall)).
  - reflexivity.
  - reflexivity.
Defined.

(** X21. An ancestor holds the node: when [nodeA] is an ancestor of
    [nodeB], a node of the file of [nodeB] has the identity [nodeA], is not
    [nodeB], and has [nodeB] among the nodes below it. *)
Theorem ancestor_holds_node (p : Project) (nodeA nodeB : NodeId) :
  isAncestorOf p nodeA nodeB = Ok true ->
  exists f n a b,
    Project.lookup p nodeB = Some (f, n)
    /\ In a (Node.nodesOf (root f))
    /\ Project.idOf a = nodeA
    /\ nodeA <> nodeB
    /\ In b (Node.getDescendants a)
    /\ Node.hasId nodeB b = true.
Proof.
  unfold isAncestorOf, getAncestors, optBind.
  destruct (Project.lookup p nodeB) as [[f n]|] eqn:L; [|discriminate].
  simpl. destruct (ancestorsIn nodeB (root f)) as [up|] eqn:E; [|discriminate].
  destruct (ancestorsIn_spec _ _ _ E) as [Hall _].
  intros [= H]. apply existsb_exists in H. destruct H as [a [Ha Hid]].
  rewrite Forall_forall in Hall.
  destruct (Hall a Ha) as [Hno [Hin [b Hb]]].
  unfold Node.findNode in Hb. apply find_some in Hb.
  destruct Hb as [Hbin Hbid].
  destruct a as [k t | j g k cs]; [discriminate Hid|].
  simpl in Hid, Hno. apply Nat.eqb_eq in Hid. apply Nat.eqb_neq in Hno.
  exists f, n, (Syntax j g k cs), b.
  split; [reflexivity|]. split; [exact Hin|]. split; [exact Hid|].
  split; [congruence|]. split; [|exact Hbid].
  unfold Node.nodesOf in Hbin. simpl Node.isSyntax in Hbin. cbv iota in Hbin.
  destruct Hbin as [<- | Hbin]; [|exact Hbin].
  simpl in Hbid. apply Nat.eqb_eq in Hbid. congruence.
Qed.

Lemma ancestor_holds_node_witness :
  exists f n a b,
    Project.lookup (Samples.useSite Samples.negatedCall) 44 = Some (f, n)
    /\ In a (Node.nodesOf (root f))
    /\ Project.idOf a = 42
    /\ 42 <> 44
    /\ In b (Node.getDescendants a)
    /\ Node.hasId 44 b = true.
Proof.
  apply (ancestor_holds_node (Samples.useSite Samples.negatedCall) 42 44).
  reflexivity.
Defined.
